(** * Retrieval and routing layer of new_main_3 (24Hour-AI)

    A shallow embedding of the code that talks to the embedding service,
    the Pinecone vector index and the OpenAI completion endpoint:

    - [lib/clients/pinecone/client.ts]  (module-level client, key guard)
    - [lib/clients/google/client.ts]    ([semanticSearch])
    - [lib/functions/openai/responses.ts] ([getOpenAICompletion] and the
      search script that follows it)

    An [async] function is a computation over a [World]: the contents of
    the vector index together with the ordered log of the requests sent to
    external services.  A rejected promise is an [Err] result; the world
    reached so far is kept, as nothing in JavaScript rolls it back. *)

From stdpp Require Import gmap strings list sorting.

Local Open Scope Z_scope.
Local Open Scope string_scope.

(** ** Errors and results *)

(** The error kinds of the core.  [JsError] is a plain [new Error(message)];
    [ProviderError] stands for whatever exception an external SDK raises. *)
Inductive Error : Type :=
  | ValidationError
  | InvalidTenantError
  | ProviderError (detail : string)
  | UnsupportedModelError
  | CanceledError
  | JsError (message : string).

Inductive Result (A : Type) : Type :=
  | Ok (a : A)
  | Err (e : Error).
Arguments Ok {A} a.
Arguments Err {A} e.

(** What an external service does with one request: it answers, or the
    request fails with the SDK's own exception. *)
Inductive Upstream (A : Type) : Type :=
  | Answered (a : A)
  | Failed (detail : string).
Arguments Answered {A} a.
Arguments Failed {A} detail.

Definition from_upstream {A} (u : Upstream A) : Result A :=
  match u with
  | Answered a => Ok a
  | Failed d => Err (ProviderError d)
  end.

(** [process.env]: a variable is unset ([None]) or bound to a string. *)
Definition Env : Type := string → option string.

(** JavaScript truthiness of [process.env.X]: [undefined] and the empty
    string are falsy. *)
Definition truthy (v : option string) : bool :=
  match v with
  | None => false
  | Some s => negb (String.eqb s "")
  end.

(** [a || b] on a possibly undefined string. *)
Definition or_else (v : option string) (d : string) : string :=
  if truthy v then default d v else d.

Definition Metadata : Type := list (string * string).

Section Model.
(** Embedding vectors and similarity scores are opaque numbers to the
    core: it never computes with them. *)
Context {Vec Score : Type}.

(** *** Data model *)

Record VectorRecord : Type := mkVectorRecord {
  values : Vec;
  record_metadata : option Metadata
}.

(** [{ id, score, metadata }], client.ts:16. *)
Record RetrievalMatch : Type := mkMatch {
  id : string;
  score : Score;
  metadata : option Metadata
}.

(** The argument of [.query(...)], client.ts:15. *)
Record QueryOptions : Type := mkQueryOptions {
  topK : Z;
  vector : Vec;
  includeMetadata : bool
}.

Record QueryResponse : Type := mkQueryResponse {
  matches : list RetrievalMatch;
  namespace : string
}.

(** The argument of [openai.responses.create(...)], responses.ts:8-11. *)
Record ResponsesRequest : Type := mkResponsesRequest {
  model : string;
  input : string
}.

(** Requests that leave the process, in the order they are issued. *)
Inductive Call : Type :=
  | EmbeddingsCreate (text : string)
  | IndexQuery (ns : string) (opts : QueryOptions)
  | IndexUpsert (ns : string) (doc : string) (v : Vec)
  | IndexDeleteOne (ns : string) (doc : string)
  | IndexDeleteAll (ns : string)
  | ResponsesCreate (req : ResponsesRequest).

(** The index: namespace, then record id. *)
Record World : Type := mkWorld {
  index : gmap string (gmap string VectorRecord);
  calls : list Call
}.

Definition ns_records (st : gmap string (gmap string VectorRecord))
    (ns : string) : gmap string VectorRecord :=
  default ∅ (st !! ns).

(** The external collaborators.  Nothing is assumed about the answers:
    the index may answer a query with any response at all. *)
Record Services : Type := mkServices {
  embeddings_create : string → Upstream Vec;
  responses_create : ResponsesRequest → Upstream string;
  index_answer :
    gmap string (gmap string VectorRecord) → string → QueryOptions →
    Upstream QueryResponse;
  index_write_fault : Call → option string
}.

(** *** Asynchronous computations *)

Definition Async (A : Type) : Type := World → Result A * World.

Definition resolve_with {A} (a : A) : Async A := λ w, (Ok a, w).
Definition reject {A} (e : Error) : Async A := λ w, (Err e, w).

(** [await]: run [m]; on rejection the rest of the function is skipped. *)
Definition await {A B} (m : Async A) (k : A → Async B) : Async B :=
  λ w, match m w with
       | (Ok a, w') => k a w'
       | (Err e, w') => (Err e, w')
       end.

Definition send (c : Call) (w : World) : World :=
  {| index := index w; calls := calls w ++ [c] |}.

Definition result_of {A} (m : Async A) (w : World) : Result A := (m w).1.
Definition world_after {A} (m : Async A) (w : World) : World := (m w).2.
(** The requests issued by [m] itself when started in [w]. *)
Definition issued {A} (m : Async A) (w : World) : list Call :=
  drop (length (calls w)) (calls (world_after m w)).

Context (svc : Services).

(** *** Calls to the external services *)

Definition openai_embeddings_create (text : string) : Async Vec :=
  λ w, (from_upstream (embeddings_create svc text),
        send (EmbeddingsCreate text) w).

Definition openai_responses_create (req : ResponsesRequest) : Async string :=
  λ w, (from_upstream (responses_create svc req),
        send (ResponsesCreate req) w).

(** The exception of the SDK's own argument check. *)
Definition argument_error : Error := ProviderError "PineconeArgumentError".

(** [pinecone.namespace(ns).query(opts)]: the SDK checks its arguments
    first and refuses a [topK] below 1 before anything is sent; otherwise
    the request goes out and the index answers or fails. *)
Definition pinecone_query (ns : string) (opts : QueryOptions)
    : Async QueryResponse :=
  λ w, if Z.ltb (topK opts) 1
       then (Err argument_error, w)
       else (from_upstream (index_answer svc (index w) ns opts),
             send (IndexQuery ns opts) w).

(** The write operations of the index (Pinecone SDK): a write takes
    effect unless the request itself fails. *)
Definition pinecone_write (c : Call)
    (f : gmap string (gmap string VectorRecord) →
         gmap string (gmap string VectorRecord)) : Async unit :=
  λ w, match index_write_fault svc c with
       | Some d => (Err (ProviderError d), send c w)
       | None => (Ok tt, send c {| index := f (index w); calls := calls w |})
       end.

(** [pinecone.namespace(ns).upsert([{ id, values }])]: overwrite by id. *)
Definition pinecone_upsert (ns doc : string) (v : Vec) : Async unit :=
  pinecone_write (IndexUpsert ns doc v)
    (λ st, <[ns := <[doc := mkVectorRecord v None]> (ns_records st ns)]> st).



#[local] Notation "x ⇐ m ; k" := (await m (λ x, k))
  (at level 100, m at next level, right associativity).

(** *** lib/functions/openai/embeddings (absent from the sources) *)

(** Modelled from the spec: [getTextEmbedding], imported at client.ts:7
    from a module that is not among the sources.  Per section 4.1 it is
    one call to the embedding service, whose failure is passed on; there
    is no caching. *)
Definition getTextEmbedding (text : string) : Async Vec :=
  openai_embeddings_create text.

(** *** lib/clients/google/client.ts:11-17 *)

(** [topK = 5]: the default applies when the argument is omitted. *)
Definition semanticSearch (query : string) (topK : option Z)
    : Async (list RetrievalMatch) :=
  embedding ⇐ getTextEmbedding query;
  res ⇐ pinecone_query "first-user-1"
          {| topK := default 5 topK;
             vector := embedding;
             includeMetadata := true |};
  resolve_with (matches res).

(** *** lib/functions/openai/responses.ts:4-13 *)

(** [model = 'gpt-4o']: the default applies when the argument is
    omitted. *)
Definition getOpenAICompletion (message : string) (model : option string)
    : Async string :=
  output_text ⇐ openai_responses_create
                  {| model := default "gpt-4o" model; input := message |};
  resolve_with output_text.

(** *** The two entry points as a caller acting for a tenant reaches them *)

(** The namespace a search made on behalf of [tenantId] is sent to.
    client.ts:14 spells it as a string literal, and no parameter of
    [semanticSearch] can carry a tenant identifier: as a function of the
    tenant it is constant. *)
Definition resolve (tenantId : string) : string := "first-user-1".

(** "Answer a query for tenant T": [semanticSearch(query, topK)] is the
    only retriever in the sources; the tenant identifier is dropped at
    the call because there is no parameter to pass it in. *)
Definition search (tenantId queryText : string) (k : Z)
    : Async (list RetrievalMatch) :=
  semanticSearch queryText (Some k).

(** [{ message, model?, context? }] *)
Record ModelRequest : Type := mkModelRequest {
  message : string;
  model_hint : option string;
  context : option (list RetrievalMatch)
}.

(** [getOpenAICompletion(message, model)] is the only completion entry
    point in the sources; of a request it can be handed the message and
    the model hint, and nothing else. *)
Definition route (request : ModelRequest) : Async string :=
  getOpenAICompletion (message request) (model_hint request).

(** *** tests/testSemanticSearch (responses.ts:17-34) *)

Inductive ScriptOutcome : Type :=
  | Printed (found : nat)        (* console.log of the matches *)
  | Caught (error : Error)       (* console.error in the catch block *)
  | Uncaught (error : Error).    (* exception outside any try block *)

Definition search_script_body : World → ScriptOutcome * World :=
  λ w, match semanticSearch "How do I implement semantic search?" (Some 3) w with
       | (Ok results, w') => (Printed (length results), w')
       | (Err error, w') => (Caught error, w')
       end.
End Model.

Arguments Async : clear implicits.
Arguments World : clear implicits.
Arguments Services : clear implicits.

(** ** Module evaluation *)

(** The handle exported by a Pinecone client module. *)
Record PineconeIndex : Type := mkPineconeIndex {
  apiKey : string;
  index_name : string
}.

(** lib/clients/pinecone/client.ts:3-14 and its sibling with index
    'chatbot-main-3': the statements run when the module is first
    imported. *)
Definition pinecone_client (name : string) (env : Env) : Result PineconeIndex :=
  let apiKey := env "PINECONE_API_KEY" in
  if negb (truthy apiKey)
  then Err (JsError "Missing PINECONE_API_KEY env var")
  else Ok {| apiKey := default "" apiKey; index_name := name |}.

(** lib/clients/google/client.ts:3: [process.env.GEMINI_API_KEY || ""]. *)
Definition google_client (env : Env) : string :=
  or_else (env "GEMINI_API_KEY") "".

Section Loading.
(** Evaluation of lib/functions/openai/embeddings, which is not among
    the sources: whether it throws on load is left open. *)
Context (load_embeddings : Env → Result unit).

(** Evaluating the module of [semanticSearch]: its imports run first, in
    source order (client.ts:6-7), then its body (client.ts:3). *)
Definition load_search_module (env : Env) : Result (string * PineconeIndex) :=
  match pinecone_client "24Hourgpt" env with
  | Err e => Err e
  | Ok pinecone =>
      match load_embeddings env with
      | Err e => Err e
      | Ok _ => Ok (google_client env, pinecone)
      end
  end.

Context {Vec Score : Type} (svc : Services Vec Score).

(** Running the search script: the import at responses.ts:15 is
    evaluated before the [try] block at responses.ts:18 is entered. *)
Definition search_script (env : Env) (w : World Vec)
    : ScriptOutcome * World Vec :=
  match load_search_module env with
  | Err e => (Uncaught e, w)
  | Ok _ => search_script_body svc w
  end.
End Loading.

(** ** Document Indexer (lib/functions/pinecone/upsertVectors) *)

Section DocumentIndexer.
Context {Vec Score : Type} (svc : Services Vec Score).
(** The Namespace Resolver handed to the indexer. *)
Context (resolver : string → Result string).

#[local] Notation "x ⇐ m ; k" := (await m (λ x, k))
  (at level 100, m at next level, right associativity).

Definition resolved (tenantId : string) : Async Vec string :=
  λ w, (resolver tenantId, w).

(** Modelled from the spec: [indexDocument], imported by
    tests/testUpsert.ts:3 from a module that is not among the sources.
    Section 4.3: reject empty content or empty docId with
    ValidationError; resolve the namespace; call the embedding provider
    and pass its error on; upsert [{ id: docId, values: vector }] into
    the resolved namespace. *)
Definition indexDocument (tenantId docId content : string)
    : Async Vec unit :=
  if bool_decide (content = "") || bool_decide (docId = "")
  then reject ValidationError
  else
    ns ⇐ resolved tenantId;
    v ⇐ getTextEmbedding svc content;
    pinecone_upsert svc ns docId v.


End DocumentIndexer.

(** ** The vector index as the core expects it to answer *)

Section VectorIndex.
Context {Vec Score : Type}.
(** The similarity the index was configured with, and the order on its
    scores. *)
Context (metric : Vec → Vec → Score).
Context (score_leb : Score → Score → bool).

(** [a] may stand before [b] in a list of matches: its score is not
    smaller. *)
Definition by_score_desc (a b : @RetrievalMatch Score) : Prop :=
  score_leb (score b) (score a) = true.

Definition by_score_desc_dec (a b : @RetrievalMatch Score)
    : Decision (by_score_desc a b) :=
  bool_eq_dec (score_leb (score b) (score a)) true.
#[local] Existing Instance by_score_desc_dec.

Definition to_match (opts : @QueryOptions Vec)
    (entry : string * @VectorRecord Vec) : @RetrievalMatch Score :=
  {| id := entry.1;
     score := metric (vector opts) (values entry.2);
     metadata := if includeMetadata opts
                 then record_metadata entry.2 else None |}.

(** The [topK] records of one namespace that score best against the
    query vector, best first. *)
Definition nearest (records : gmap string (@VectorRecord Vec))
    (opts : @QueryOptions Vec) : list (@RetrievalMatch Score) :=
  take (Z.to_nat (topK opts))
       (merge_sort by_score_desc (to_match opts <$> map_to_list records)).

(** Modelled from the spec: the vector index of section 6,
    [query(namespace, vector, topK, includeMetadata?) -> matches], an
    external service: a query reads the records of its namespace and of
    no other. *)
Definition pinecone_index (st : gmap string (gmap string (@VectorRecord Vec)))
    (ns : string) (opts : @QueryOptions Vec)
    : Upstream (@QueryResponse Score) :=
  Answered {| matches := nearest (ns_records st ns) opts; namespace := ns |}.

(** What the core relies on when it hands the index's answer on. *)
Record IndexContract
    (answer : gmap string (gmap string (@VectorRecord Vec)) → string →
              @QueryOptions Vec → Upstream (@QueryResponse Score)) : Prop :=
  mkIndexContract {
    answer_scoped : ∀ st st' ns opts,
      ns_records st ns = ns_records st' ns →
      answer st ns opts = answer st' ns opts;
    answer_stored : ∀ st ns opts r m,
      answer st ns opts = Answered r → m ∈ matches r →
      ∃ rec, ns_records st ns !! id m = Some rec ∧
             score m = metric (vector opts) (values rec);
    answer_sorted : ∀ st ns opts r,
      answer st ns opts = Answered r → Sorted by_score_desc (matches r);
    answer_bound : ∀ st ns opts r,
      answer st ns opts = Answered r →
      (length (matches r) ≤ Z.to_nat (topK opts))%nat;
    answer_nearest : ∀ st ns opts r m doc rec,
      answer st ns opts = Answered r → m ∈ matches r →
      ns_records st ns !! doc = Some rec → doc ∉ id <$> matches r →
      score_leb (metric (vector opts) (values rec)) (score m) = true
  }.
End VectorIndex.

(** ** A concrete world, for running the definitions *)

Module Reference.
(** Vectors of integers under the dot product. *)
Definition dot (a b : list Z) : Z := foldr Z.add 0 (zip_with Z.mul a b).

Definition embed_text (text : string) : Upstream (list Z) :=
  if bool_decide (text = "") then Failed "empty input"
  else Answered [Z.of_nat (String.length text); 1].

Definition complete (req : ResponsesRequest) : Upstream string :=
  if bool_decide (model req = "gpt-4o")
  then Answered ("echo: " ++ input req)
  else Failed "model_not_found".

Definition services : Services (list Z) Z :=
  {| embeddings_create := embed_text;
     responses_create := complete;
     index_answer := pinecone_index dot Z.leb;
     index_write_fault := λ _, None |}.

Definition empty_world : World (list Z) := {| index := ∅; calls := [] |}.

(** Namespace "first-user-1" holds two documents, "tenant2" one. *)
Definition shared_world : World (list Z) :=
  {| index :=
       <["first-user-1" :=
           <["doc-a" := mkVectorRecord [1; 0] None]>
             (<["doc-b" := mkVectorRecord [2; 5] None]> ∅)]>
         (<["tenant2" := <["G" := mkVectorRecord [7; 7] None]> ∅]> ∅);
     calls := [] |}.

(** The same contents under "first-user-1", other namespaces changed. *)
Definition regrouped_world : World (list Z) :=
  {| index :=
       <["first-user-1" :=
           <["doc-a" := mkVectorRecord [1; 0] None]>
             (<["doc-b" := mkVectorRecord [2; 5] None]> ∅)]>
         (<["tenant3" := <["H" := mkVectorRecord [8; 8] None]> ∅]> ∅);
     calls := [EmbeddingsCreate "earlier"] |}.

(** An index that answers every query with the same three matches, out
    of order and whatever [topK] was asked for. *)
Definition careless_services : Services (list Z) Z :=
  {| embeddings_create := embed_text;
     responses_create := complete;
     index_answer := λ _ ns _,
       Answered {| matches := [mkMatch "x" 1 None; mkMatch "y" 9 None;
                               mkMatch "z" 4 None];
                   namespace := ns |};
     index_write_fault := λ _, None |}.

Definition no_env : Env := λ _, None.
Definition full_env : Env := λ name,
  if bool_decide (name = "PINECONE_API_KEY") then Some "pc-key" else None.
End Reference.

(** ** The properties under study, as the specification words them *)

Section Properties.
Context {Vec Score : Type} (svc : Services Vec Score).

(** The resolver in the shape the indexer takes it. *)
Definition namespace_resolver (tenantId : string) : Result string :=
  Ok (resolve tenantId).

(** Isolation: a search for tenant [A] never returns a record stored
    under the namespace of another tenant [B]. *)
Definition tenant_isolation : Prop :=
  ∀ (A B : string), A ≠ B →
  ∀ (q : string) (k : Z) (w : World Vec) ms (m : @RetrievalMatch Score),
    result_of (search svc A q k) w = Ok ms → m ∈ ms →
    ns_records (index w) (resolve B) !! id m = None.

(** Isolation, second wording: a document indexed under [A] is not
    returned by a query under [B]. *)
Definition index_then_query_isolated : Prop :=
  ∀ (A B : string), A ≠ B →
  ∀ (doc content q : string) (k : Z) (w : World Vec) ms
    (m : @RetrievalMatch Score),
    result_of (indexDocument svc namespace_resolver A doc content) w = Ok tt →
    result_of (search svc B q k)
      (world_after (indexDocument svc namespace_resolver A doc content) w)
      = Ok ms →
    m ∈ ms → id m ≠ doc.

(** Injectivity of the resolver. *)
Definition resolve_injective : Prop :=
  ∀ t1 t2 : string, t1 ≠ t2 → resolve t1 ≠ resolve t2.

(** The model hint "unknown-model-x", which no provider serves, is refused
    before anything is sent. *)
Definition rejects_unknown_model : Prop :=
  ∀ (text : string) (ctx : option (list (@RetrievalMatch Score)))
    (w : World Vec),
    result_of (route svc (mkModelRequest text (Some "unknown-model-x") ctx)) w
      = Err UnsupportedModelError ∧
    issued (route svc (mkModelRequest text (Some "unknown-model-x") ctx)) w = [].

(** The retrieved context stands in the outbound prompt, ahead of the
    message. *)
Definition composes_context_ahead : Prop :=
  ∀ (request : @ModelRequest Score) (w : World Vec) ctx out,
    context request = Some ctx → ctx ≠ [] →
    ResponsesCreate out ∈ issued (route svc request) w →
    ∃ block, block ≠ "" ∧ input out = block ++ message request.
End Properties.

(** ** Top-K retrieval inside the tenant's namespace *)

Section TopKProperty.
Context {Vec Score : Type} (svc : Services Vec Score).
Context (score_leb : Score → Score → bool).

(** With [namespace_of] giving each tenant its namespace: a search for a
    tenant returns at most [topK] matches, best first, each a record of
    that tenant's namespace. *)
Definition search_serves_namespace (namespace_of : string → string) : Prop :=
  ∀ (tenantId query : string) (k : Z) (w : World Vec)
    (ms : list (@RetrievalMatch Score)),
    (1 ≤ k)%Z →
    result_of (search svc tenantId query k) w = Ok ms →
    (length ms ≤ Z.to_nat k)%nat ∧
    Sorted (by_score_desc score_leb) ms ∧
    ∀ m, m ∈ ms →
      is_Some (ns_records (index w) (namespace_of tenantId) !! id m).

(** The same with the namespaces of the data model, one per tenant. *)
Definition search_serves_tenant_namespace : Prop :=
  ∃ namespace_of : string → string,
    (∀ t1 t2, t1 ≠ t2 → namespace_of t1 ≠ namespace_of t2) ∧
    search_serves_namespace namespace_of.
End TopKProperty.

(** Loading the core never throws, whatever the environment. *)
Definition loading_never_throws : Prop :=
∀ (name : string) (env : Env), ∃ handle, pinecone_client name env = Ok handle.

(** ** tests/testClients.ts *)

(** A JavaScript value as far as the client tests look at it: whether it is
    nullish, what [typeof] says, whether it is truthy, and the name of its
    [constructor], if it has one. *)
Inductive JsValue : Type :=
  | JsUndefined
  | JsNull
  | JsPrimitive (type_name : string) (is_truthy : bool) (wrapper : option string)
  | JsObject (class : option string)
  | JsFunction (class : option string).

(** [!!client] *)
Definition js_truthy (v : JsValue) : bool :=
  match v with
  | JsUndefined | JsNull => false
  | JsPrimitive _ b _ => b
  | JsObject _ | JsFunction _ => true
  end.

(** [typeof client] *)
Definition js_typeof (v : JsValue) : string :=
  match v with
  | JsUndefined => "undefined"
  | JsNull | JsObject _ => "object"
  | JsPrimitive t _ _ => t
  | JsFunction _ => "function"
  end.

(** The TypeError of a property read on [undefined] or [null]. *)
Definition type_error : Error := JsError "TypeError".

(** [client.constructor?.name], testClients.ts:35: reading [constructor]
    off a nullish value throws; a missing constructor gives [undefined]. *)
Definition constructor_name (v : JsValue) : Result (option string) :=
  match v with
  | JsUndefined | JsNull => Err type_error
  | JsPrimitive _ _ c | JsObject c | JsFunction c => Ok c
  end.

(** What the script writes, one constructor per [console] statement. *)
Inductive ConsoleLine : Type :=
  | LogBanner                                   (* testClients.ts:27 *)
  | LogSection (name : string)                  (* testClients.ts:30 *)
  | LogInitialized (initialized : bool)         (* testClients.ts:31 *)
  | LogKeyConfigured (keyEnv : string) (envPresent : bool) (* :32 *)
  | LogClientType (type_name : string)          (* testClients.ts:34 *)
  | LogConstructor (name : option string)       (* testClients.ts:35 *)
  | ErrorInspecting (err : Error)               (* testClients.ts:37 *)
  | LogComplete.                                (* testClients.ts:41 *)

Inductive ScriptRun : Type :=
  | Crashed (error : Error)            (* an import threw: nothing is written *)
  | Output (lines : list ConsoleLine).

(** The [try] block of testClients.ts:33-38. *)
Definition inspect_client (client : JsValue) : list ConsoleLine :=
  LogClientType (js_typeof client) ::
  match constructor_name client with
  | Ok name => [LogConstructor name]
  | Err err => [ErrorInspecting err]
  end.

(** One turn of the loop, testClients.ts:28-39. *)
Definition check_client (env : Env) (test : string * JsValue * string)
    : list ConsoleLine :=
  let '(name, client, keyEnv) := test in
  let envPresent := truthy (env keyEnv) in
  [LogSection name;
   LogInitialized (js_truthy client);
   LogKeyConfigured keyEnv envPresent] ++ inspect_client client.

Section ClientTests.
(** Evaluation of the client modules that are not among the sources
    (openai, mistral, anthropic, huggingface, xai, supabase), by import
    path: the exported value, or the exception thrown on load. *)
Context (load_client : string → Env → Result JsValue).
(** The constructor names of the two SDK objects. *)
Context (google_class pinecone_class : option string).

(** The table at testClients.ts:16-25. *)
Definition tests (google openai mistral anthropic huggingface xai pinecone
    supabase : JsValue) : list (string * JsValue * string) :=
  [ ("Google (Gemini)", google, "GEMINI_API_KEY");
    ("OpenAI", openai, "OPENAI_API_KEY");
    ("Mistral", mistral, "MISTRAL_API_KEY");
    ("Anthropic", anthropic, "ANTHROPIC_API_KEY");
    ("HuggingFace", huggingface, "HF_API_KEY");
    ("xAI", xai, "XAI_API_KEY");
    ("Pinecone", pinecone, "PINECONE_API_KEY");
    ("Supabase", supabase, "SUPABASE_API_KEY") ].


(** The imports of testClients.ts:7-14, evaluated in source order before
    the first statement of the script; [env] is [process.env] once
    'dotenv/config' (testClients.ts:5) has run.  The Google client module
    is the constructor call of client.ts:1-5 and does not throw; the
    Pinecone client module, with its key guard, is the seventh import. *)
Definition import_clients (env : Env) : Result (list (string * JsValue * string)) :=
  let google := JsObject google_class in
  match load_client "../lib/clients/openai/client" env with
  | Err e => Err e
  | Ok openai =>
  match load_client "../lib/clients/mistral/client" env with
  | Err e => Err e
  | Ok mistral =>
  match load_client "../lib/clients/anthropic/client" env with
  | Err e => Err e
  | Ok anthropic =>
  match load_client "../lib/clients/huggingface/client" env with
  | Err e => Err e
  | Ok huggingface =>
  match load_client "../lib/clients/xai/client" env with
  | Err e => Err e
  | Ok xai =>
  match pinecone_client "24Hourgpt" env with
  | Err e => Err e
  | Ok _ =>
  match load_client "../lib/clients/supabase/client" env with
  | Err e => Err e
  | Ok supabase =>
      Ok (tests google openai mistral anthropic huggingface xai
                (JsObject pinecone_class) supabase)
  end end end end end end end.

(** The whole script. *)
Definition testClients (env : Env) : ScriptRun :=
  match import_clients env with
  | Err e => Crashed e
  | Ok table =>
      Output (LogBanner :: flat_map (check_client env) table ++ [LogComplete])
  end.
End ClientTests.


(** ** The bouncing balls of the landing page (BallCanvas) *)

Module BallCanvas.
Section Animation.
(** JavaScript numbers and the operations the component applies to them.
    They are left uninterpreted: what is proved below holds for IEEE
    doubles as for any other reading of them. *)
Context {num : Type}.
Context (add sub mul : num → num → num) (neg : num → num).
Context (geq leq : num → num → bool).           (* [>=] and [<=] *)
Context (max min : num → num → num).            (* Math.max, Math.min *)
Context (of_int : Z → num).                     (* an integer attribute, read *)
Context (floor_index : num → option nat).       (* Math.floor, as an index *)
Context (zero half one_and_a_half eight twenty : num). (* 0, 0.5, 1.5, 8, 20 *)

Record Ball : Type := mkBall {
  x : num;
  y : num;
  dx : num;
  dy : num;
  radius : num;
  color : option string       (* [undefined] when the index misses *)
}.

(** [canvas.width] and [canvas.height] are integer attributes. *)
Record Canvas : Type := mkCanvas {
  width : Z;
  height : Z
}.

Definition colors : list string :=
  ["#ff6b6b"; "#4ecdc4"; "#45b7d1"; "#96ceb4";
   "#feca57"; "#ff9ff3"; "#54a0ff"; "#5f27cd"].

(** [Math.min(30, Math.floor((canvas.width * canvas.height) / 10000))].
    On the non-negative integers the two attributes hold, flooring the
    quotient is integer division; a product too large to be exact as a
    double is far above the point where the minimum is 30. *)
Definition ballCount (canvas : Canvas) : Z :=
  Z.min 30 (width canvas * height canvas / 10000).

(** The object literal of one [balls.push]: six calls of [Math.random],
    in the order of the fields; [random n] is the [n]-th number drawn. *)
Definition new_ball (canvas : Canvas) (random : nat → num) (n : nat) : Ball :=
  {| x := mul (random n) (of_int (width canvas));
     y := mul (random (n + 1)%nat) (of_int (height canvas));
     dx := mul (sub (random (n + 2)%nat) half) one_and_a_half;
     dy := mul (sub (random (n + 3)%nat) half) one_and_a_half;
     radius := add (mul (random (n + 4)%nat) twenty) eight;
     color := floor_index (mul (random (n + 5)%nat)
                               (of_int (Z.of_nat (length colors))))
              ≫= (colors !!.) |}.

(** The [for] loop, [count] turns left. *)
Fixpoint push_balls (count : nat) (canvas : Canvas) (random : nat → num)
    (n : nat) : list Ball :=
  match count with
  | O => []
  | S count' =>
      new_ball canvas random n :: push_balls count' canvas random (n + 6)%nat
  end.

(** [initializeBalls]: the new value of [ballsRef.current]; the balls that
    were there are dropped. *)
Definition initializeBalls (canvas : Canvas) (random : nat → num) (n : nat)
    : list Ball :=
  push_balls (Z.to_nat (ballCount canvas)) canvas random n.

(** One axis of the body of the [forEach]: the position already moved, the
    velocity, the radius and the far edge. *)
Definition bounce (position velocity r edge : num) : num * num :=
  if geq (add position r) edge || leq (sub position r) zero
  then (max r (min (sub edge r) position), neg velocity)
  else (position, velocity).

(** What [animate] does to one ball. *)
Definition move (canvas : Canvas) (ball : Ball) : Ball :=
  let '(x', dx') := bounce (add (x ball) (dx ball)) (dx ball) (radius ball)
                           (of_int (width canvas)) in
  let '(y', dy') := bounce (add (y ball) (dy ball)) (dy ball) (radius ball)
                           (of_int (height canvas)) in
  {| x := x'; y := y'; dx := dx'; dy := dy';
     radius := radius ball; color := color ball |}.

(** The calls made on the 2D context and the frame request. *)
Inductive Draw : Type :=
  | ClearRect (w h : Z)
  | BeginPath
  | Arc (cx cy r : num)
  | FillStyle (c : option string)
  | Fill
  | RequestAnimationFrame.

Definition draw_ball (ball : Ball) : list Draw :=
  [BeginPath; Arc (x ball) (y ball) (radius ball); FillStyle (color ball); Fill].

(** One call of [animate]: the balls afterwards and what was drawn. *)
Definition animate (canvas : Canvas) (balls : list Ball)
    : list Ball * list Draw :=
  let moved := move canvas <$> balls in
  (moved,
   (ClearRect (width canvas) (height canvas) :: flat_map draw_ball moved)
     ++ [RequestAnimationFrame])%list.

(** The balls after [n] frames. *)
Fixpoint frames (n : nat) (canvas : Canvas) (balls : list Ball) : list Ball :=
  match n with
  | O => balls
  | S n' => frames n' canvas (animate canvas balls).1
  end.

End Animation.
End BallCanvas.

(** ** Sample values for running the scripts and the animation *)

Module Samples.
(** The absent client modules: OpenAI exports an object, Mistral nothing,
    Supabase's [createClient] is a function, the others plain objects. *)
Definition load_client (path : string) (env : Env) : Result JsValue :=
  if bool_decide (path = "../lib/clients/openai/client")
  then Ok (JsObject (Some "OpenAI"))
  else if bool_decide (path = "../lib/clients/mistral/client")
  then Ok JsUndefined
  else if bool_decide (path = "../lib/clients/supabase/client")
  then Ok (JsFunction (Some "Function"))
  else Ok (JsObject None).

Definition load_embeddings (env : Env) : Result unit := Ok tt.

(** Integers standing for numbers. *)
Definition ball : @BallCanvas.Ball Z :=
  BallCanvas.mkBall 95 40 10 (-3) 8 (Some "#ff6b6b").

Definition canvas : BallCanvas.Canvas := BallCanvas.mkCanvas 100 200.

Definition move : @BallCanvas.Ball Z → @BallCanvas.Ball Z :=
  BallCanvas.move Z.add Z.sub Z.opp Z.geb Z.leb Z.max Z.min (λ n, n) 0 canvas.

Definition random (n : nat) : Z := Z.of_nat n mod 2.
End Samples.

(** * Theorems *)

(** ** Sorted lists *)

Section SortedFacts.
Context {A : Type} (R : relation A).

Lemma Sorted_take_prefix (n : nat) (l : list A) :
  Sorted R l → Sorted R (take n l).
Proof.
  intros Hs. revert n.
  induction Hs as [|x l Hs IH Hhd]; intros [|n]; simpl;
    try constructor; auto.
  destruct Hhd as [|y l' Hxy]; destruct n; simpl; constructor; done.
Qed.

Lemma StronglySorted_take_drop (n : nat) (l : list A) x y :
  StronglySorted R l → x ∈ take n l → y ∈ drop n l → R x y.
Proof.
  intros Hs Hx Hy.
  rewrite <- (take_drop n l) in Hs.
  apply StronglySorted_app in Hs as (H & _ & _). by apply H.
Qed.
End SortedFacts.

(** ** The reference index honours the contract *)

Section IndexFacts.
Context {Vec Score : Type}.
Context (metric : Vec → Vec → Score) (score_leb : Score → Score → bool).
Context (leb_total : ∀ a b, score_leb a b = true ∨ score_leb b a = true).
Context (leb_trans : ∀ a b c,
  score_leb a b = true → score_leb b c = true → score_leb a c = true).

#[local] Existing Instance by_score_desc_dec.

Lemma by_score_desc_total : Total (by_score_desc score_leb).
Proof using leb_total.
  intros a b. unfold by_score_desc.
  destruct (leb_total (score a) (score b)); auto.
Qed.

Lemma by_score_desc_trans : Transitive (by_score_desc score_leb).
Proof using leb_trans.
  intros a b c Hab Hbc. unfold by_score_desc in *. eauto.
Qed.

Lemma ranked_sorted (l : list (@RetrievalMatch Score)) :
  StronglySorted (by_score_desc score_leb)
    (merge_sort (by_score_desc score_leb) l).
Proof using leb_total leb_trans.
  apply (@Sorted_StronglySorted _ _ by_score_desc_trans).
  apply (@Sorted_merge_sort _ _ _ by_score_desc_total).
Qed.

Lemma elem_of_nearest records opts m :
  m ∈ nearest metric score_leb records opts →
  ∃ doc rec, records !! doc = Some rec ∧ m = to_match metric opts (doc, rec).
Proof.
  unfold nearest. intros Hm. apply elem_of_take in Hm as (i & Hm & _).
  apply list_elem_of_lookup_2 in Hm.
  rewrite merge_sort_Permutation in Hm.
  apply list_elem_of_fmap in Hm as ([doc rec] & -> & Hin).
  apply elem_of_map_to_list in Hin. eauto.
Qed.

Lemma nearest_dominates records opts m doc rec :
  m ∈ nearest metric score_leb records opts →
  records !! doc = Some rec →
  doc ∉ id <$> nearest metric score_leb records opts →
  score_leb (metric (vector opts) (values rec)) (score m) = true.
Proof using leb_total leb_trans.
  unfold nearest. set (k := Z.to_nat (topK opts)).
  set (ranked := merge_sort _ _). intros Hm Hrec Hout.
  assert (Hin : to_match metric opts (doc, rec) ∈ ranked).
  { unfold ranked. rewrite merge_sort_Permutation.
    apply list_elem_of_fmap. exists (doc, rec). split; [done|].
    by apply elem_of_map_to_list. }
  rewrite <- (take_drop k ranked) in Hin.
  apply elem_of_app in Hin as [Hin|Hin].
  - destruct Hout. apply list_elem_of_fmap.
    by exists (to_match metric opts (doc, rec)).
  - apply (StronglySorted_take_drop (by_score_desc score_leb) k ranked m _
             (ranked_sorted _) Hm Hin).
Qed.

Lemma pinecone_index_contract :
  IndexContract metric score_leb (pinecone_index metric score_leb).
Proof using leb_total leb_trans.
  split; unfold pinecone_index.
  - intros st st' ns opts Heq. by rewrite Heq.
  - intros st ns opts r m [= <-] Hm; simpl in *.
    apply elem_of_nearest in Hm as (doc & rec & Hrec & ->). eauto.
  - intros st ns opts r [= <-]; simpl.
    apply Sorted_take_prefix, StronglySorted_Sorted, ranked_sorted.
  - intros st ns opts r [= <-]; simpl. unfold nearest.
    rewrite length_take. lia.
  - intros st ns opts r m doc rec [= <-]; simpl. apply nearest_dominates.
Qed.
End IndexFacts.

Lemma reference_contract :
  IndexContract Reference.dot Z.leb (index_answer Reference.services).
Proof.
  apply pinecone_index_contract.
  - intros a b. rewrite !Z.leb_le. lia.
  - intros a b c. rewrite !Z.leb_le. lia.
Qed.

(** ** Running the computations *)

Section Runs.
Context {Vec Score : Type} (svc : Services Vec Score).

Lemma issued_appended {A} (m : Async Vec A) (w : World Vec) new :
  calls (world_after m w) = (calls w ++ new)%list → issued m w = new.
Proof. unfold issued. intros ->. apply drop_app_length. Qed.

(** [semanticSearch], step by step. *)
Lemma semanticSearch_run (query : string) (k : option Z) (w : World Vec) :
  semanticSearch svc query k w =
  match embeddings_create svc query with
  | Failed d => (Err (ProviderError d), send (EmbeddingsCreate query) w)
  | Answered v =>
      let opts := mkQueryOptions (default 5 k) v true in
      if Z.ltb (default 5 k) 1
      then (Err argument_error, send (EmbeddingsCreate query) w)
      else
        (match index_answer svc (index w) "first-user-1" opts with
         | Answered r => Ok (matches r)
         | Failed d => Err (ProviderError d)
         end,
         send (IndexQuery "first-user-1" opts)
              (send (EmbeddingsCreate query) w))
  end.
Proof.
  unfold semanticSearch, await, getTextEmbedding, openai_embeddings_create,
    pinecone_query, resolve_with.
  destruct (embeddings_create svc query) as [v|d]; simpl; [|done].
  destruct (Z.ltb (default 5 k) 1); [done|].
  by destruct (index_answer svc (index w) "first-user-1" _).
Qed.

(** The embedding answered and [topK] passes the SDK's check. *)
Lemma semanticSearch_sent (query : string) (k : option Z) (w : World Vec) v :
  embeddings_create svc query = Answered v →
  (1 ≤ default 5 k)%Z →
  semanticSearch svc query k w =
  (match index_answer svc (index w) "first-user-1"
           (mkQueryOptions (default 5 k) v true) with
   | Answered r => Ok (matches r)
   | Failed d => Err (ProviderError d)
   end,
   send (IndexQuery "first-user-1" (mkQueryOptions (default 5 k) v true))
        (send (EmbeddingsCreate query) w)).
Proof.
  intros Hv Hk. rewrite semanticSearch_run, Hv. simpl.
  destruct (Z.ltb_spec (default 5 k) 1); [lia|done].
Qed.

(** The embedding answered and the SDK refuses [topK]. *)
Lemma semanticSearch_refused (query : string) (k : option Z) (w : World Vec) v :
  embeddings_create svc query = Answered v →
  (default 5 k < 1)%Z →
  semanticSearch svc query k w
    = (Err argument_error, send (EmbeddingsCreate query) w).
Proof.
  intros Hv Hk. rewrite semanticSearch_run, Hv. simpl.
  destruct (Z.ltb_spec (default 5 k) 1); [done|lia].
Qed.

(** [getOpenAICompletion], step by step. *)
Lemma getOpenAICompletion_run (text : string) (hint : option string)
    (w : World Vec) :
  getOpenAICompletion svc text hint w =
  (from_upstream
     (responses_create svc (mkResponsesRequest (default "gpt-4o" hint) text)),
   send (ResponsesCreate (mkResponsesRequest (default "gpt-4o" hint) text)) w).
Proof.
  unfold getOpenAICompletion, await, openai_responses_create, resolve_with.
  by destruct (responses_create svc _).
Qed.

Lemma semanticSearch_index (query : string) (k : option Z) (w : World Vec) :
  index (world_after (semanticSearch svc query k) w) = index w.
Proof.
  unfold world_after. rewrite semanticSearch_run.
  destruct (embeddings_create svc query); [|done]. simpl.
  by destruct (Z.ltb (default 5 k) 1).
Qed.

Lemma semanticSearch_issued (query : string) (k : option Z) (w : World Vec) :
  issued (semanticSearch svc query k) w =
  match embeddings_create svc query with
  | Failed _ => [EmbeddingsCreate query]
  | Answered v =>
      if Z.ltb (default 5 k) 1
      then [EmbeddingsCreate query]
      else [EmbeddingsCreate query;
            IndexQuery "first-user-1" (mkQueryOptions (default 5 k) v true)]
  end.
Proof.
  apply issued_appended. unfold world_after. rewrite semanticSearch_run.
  destruct (embeddings_create svc query); simpl; [|done].
  destruct (Z.ltb (default 5 k) 1); simpl; [done|].
  by rewrite <- app_assoc.
Qed.
End Runs.

(** ** Semantic Retriever *)

Section Retriever.
Context {Vec Score : Type} (svc : Services Vec Score).

(** C10. With [topK] omitted, [semanticSearch] sends the index one query to
    namespace "first-user-1" with [topK = 5] and [includeMetadata = true],
    and returns the match list of the answer as it came: whatever list the
    index answers with is the result.  A [topK] that is given is handed to
    the SDK as it is: from 1 on it travels to the index in the query, and
    below 1 it is the SDK's [query] that refuses it, after the embedding
    request has been made; the retriever has no check of its own. *)
Theorem semanticSearch_hands_answer_on (query : string) (w : World Vec) (v : Vec) :
  embeddings_create svc query = Answered v →
  issued (semanticSearch svc query None) w =
    [EmbeddingsCreate query;
     IndexQuery "first-user-1" (mkQueryOptions 5 v true)] ∧
  (∀ r, index_answer svc (index w) "first-user-1" (mkQueryOptions 5 v true)
          = Answered r →
        result_of (semanticSearch svc query None) w = Ok (matches r)) ∧
  (∀ k r, (1 ≤ k)%Z →
          index_answer svc (index w) "first-user-1" (mkQueryOptions k v true)
            = Answered r →
          issued (semanticSearch svc query (Some k)) w =
            [EmbeddingsCreate query;
             IndexQuery "first-user-1" (mkQueryOptions k v true)] ∧
          result_of (semanticSearch svc query (Some k)) w = Ok (matches r)) ∧
  (∀ k, (k < 1)%Z →
        issued (semanticSearch svc query (Some k)) w
          = [EmbeddingsCreate query] ∧
        result_of (semanticSearch svc query (Some k)) w = Err argument_error).
Proof.
  intros Hv. split; [|split; [|split]].
  - by rewrite semanticSearch_issued, Hv.
  - intros r Hr. unfold result_of.
    rewrite (semanticSearch_sent svc query None w v Hv) by (simpl; lia).
    simpl. by rewrite Hr.
  - intros k r Hk Hr. split.
    + rewrite semanticSearch_issued, Hv. simpl.
      destruct (Z.ltb_spec k 1); [lia|done].
    + unfold result_of.
      rewrite (semanticSearch_sent svc query (Some k) w v Hv) by done.
      simpl. by rewrite Hr.
  - intros k Hk. split.
    + rewrite semanticSearch_issued, Hv. simpl.
      destruct (Z.ltb_spec k 1); [done|lia].
    + unfold result_of.
      by rewrite (semanticSearch_refused svc query (Some k) w v Hv).
Qed.

Lemma search_queries_first_user (tenantId query : string) (k : Z)
    (w : World Vec) ns opts :
  IndexQuery ns opts ∈ issued (search svc tenantId query k) w →
  ns = "first-user-1".
Proof.
  unfold search. rewrite semanticSearch_issued.
  destruct (embeddings_create svc query);
    [destruct (Z.ltb (default 5 (Some k)) 1)|]; intros Hin.
  - apply list_elem_of_singleton in Hin. discriminate.
  - apply elem_of_cons in Hin as [[=]|Hin].
    apply list_elem_of_singleton in Hin. by injection Hin as -> _.
  - apply list_elem_of_singleton in Hin. discriminate.
Qed.

(** C2, as the code has it.  The namespace is the literal "first-user-1"
    for every tenant identifier, the empty one included: resolving is
    total and repeatable, any two tenants resolve to the same namespace,
    and that namespace is the one a search for the tenant is sent to. *)
Theorem resolve_is_constant (t1 t2 query : string) (k : Z) (w : World Vec) :
  resolve t1 = "first-user-1" ∧
  resolve t1 = resolve t2 ∧
  (∀ ns opts, IndexQuery ns opts ∈ issued (search svc t1 query k) w →
              ns = resolve t1).
Proof.
  split; [done|]. split; [done|].
  intros ns opts. apply search_queries_first_user.
Qed.

Context (metric : Vec → Vec → Score) (score_leb : Score → Score → bool).
Context (contract : IndexContract metric score_leb (index_answer svc)).

(** C4, as the code has it.  For every tenant, query text and [topK ≥ 1],
    once the embedding service and the index have answered, [search]
    returns the match list the index answered with for the one namespace
    "first-user-1" and that [topK], as it came, whatever the tenant: the
    retriever neither sorts nor cuts it.  So the result has at most [topK]
    matches in non-increasing score order whenever the answer of the index
    has. *)
Theorem search_returns_index_answer (tenantId query : string) (k : Z)
    (w : World Vec) (v : Vec) (r : @QueryResponse Score) :
  (1 ≤ k)%Z →
  embeddings_create svc query = Answered v →
  index_answer svc (index w) "first-user-1" (mkQueryOptions k v true)
    = Answered r →
  result_of (search svc tenantId query k) w = Ok (matches r) ∧
  issued (search svc tenantId query k) w =
    [EmbeddingsCreate query;
     IndexQuery "first-user-1" (mkQueryOptions k v true)] ∧
  ((length (matches r) ≤ Z.to_nat k)%nat →
   Sorted (by_score_desc score_leb) (matches r) →
   ∃ ms, result_of (search svc tenantId query k) w = Ok ms ∧
         (length ms ≤ Z.to_nat k)%nat ∧
         Sorted (by_score_desc score_leb) ms).
Proof.
  intros Hk Hv Hr.
  assert (result_of (search svc tenantId query k) w = Ok (matches r)) as Hres.
  { unfold search, result_of.
    rewrite (semanticSearch_sent svc query (Some k) w v Hv) by done.
    simpl. by rewrite Hr. }
  split; [done|]. split.
  - unfold search. rewrite semanticSearch_issued, Hv. simpl.
    destruct (Z.ltb_spec k 1); [lia|done].
  - intros Hlen Hsorted. by exists (matches r).
Qed.

(** C1, as the code has it.  A search carries no tenant identifier: for
    whichever tenant it is made it queries the one namespace
    "first-user-1".  Its result depends on the contents of that namespace
    alone, so two tenants get the same matches, every match is a record
    stored there, and records of any other namespace neither appear in
    the result nor change it. *)
Theorem search_reads_one_fixed_namespace (A B query : string) (k : Z)
    (w w' : World Vec) :
  ns_records (index w) "first-user-1" = ns_records (index w') "first-user-1" →
  result_of (search svc A query k) w = result_of (search svc B query k) w' ∧
  (∀ ms m, result_of (search svc A query k) w = Ok ms → m ∈ ms →
           is_Some (ns_records (index w) "first-user-1" !! id m)) ∧
  (∀ ns opts, IndexQuery ns opts ∈ issued (search svc A query k) w →
              ns = "first-user-1").
Proof using contract.
  intros Hsame. split; [|split].
  - unfold search, result_of. rewrite !semanticSearch_run.
    destruct (embeddings_create svc query) as [v|d]; simpl; [|done].
    destruct (Z.ltb k 1); [done|]. simpl.
    by rewrite (answer_scoped _ _ _ contract _ _ _ _ Hsame).
  - intros ms m. unfold search, result_of. rewrite semanticSearch_run.
    destruct (embeddings_create svc query) as [v|d]; simpl; [|done].
    destruct (Z.ltb k 1); [done|]. simpl.
    destruct (index_answer svc (index w) "first-user-1" _) as [r|d] eqn:Hr;
      [|done].
    intros [= <-] Hm.
    destruct (answer_stored _ _ _ contract _ _ _ _ _ Hr Hm) as (rec & -> & _).
    by eexists.
  - intros ns opts Hin.
    by apply search_queries_first_user in Hin.
Qed.
End Retriever.

(** ** Model Router *)

Section Router.
Context {Vec Score : Type} (svc : Services Vec Score).

Lemma route_issued (request : @ModelRequest Score) (w : World Vec) :
  issued (route svc request) w =
  [ResponsesCreate
     (mkResponsesRequest (default "gpt-4o" (model_hint request))
                         (message request))].
Proof.
  apply issued_appended. unfold world_after, route.
  by rewrite getOpenAICompletion_run.
Qed.

(** C3, as the code has it.  Whatever the model hint, also one that names
    no model any provider serves, the request is sent: exactly one
    [responses.create] call goes out, with the hint as its model (or
    'gpt-4o' when there is none) and the message as its input.  The
    outcome is the provider's answer or the provider's failure; it is
    never UnsupportedModelError, and the index is not touched. *)
Theorem route_always_calls_provider (request : @ModelRequest Score)
    (w : World Vec) :
  issued (route svc request) w =
    [ResponsesCreate
       (mkResponsesRequest (default "gpt-4o" (model_hint request))
                           (message request))] ∧
  result_of (route svc request) w =
    from_upstream
      (responses_create svc
         (mkResponsesRequest (default "gpt-4o" (model_hint request))
                             (message request))) ∧
  result_of (route svc request) w ≠ Err UnsupportedModelError ∧
  index (world_after (route svc request) w) = index w.
Proof.
  split; [apply route_issued|].
  unfold result_of, world_after, route. rewrite getOpenAICompletion_run.
  simpl. split; [done|]. split; [|done].
  by destruct (responses_create svc _).
Qed.

(** C9, as the code has it.  The outbound request is
    [{ model, input: message }], fixed by the message and the model hint
    alone: two calls that agree on these two send identical requests,
    whatever context either request holds.  The context is not part of
    what is sent. *)
Theorem route_request_fixed_by_message_and_model
    (r1 r2 : @ModelRequest Score) (w1 w2 : World Vec) :
  message r1 = message r2 →
  model_hint r1 = model_hint r2 →
  issued (route svc r1) w1 = issued (route svc r2) w2 ∧
  issued (route svc r1) w1 =
    [ResponsesCreate
       (mkResponsesRequest (default "gpt-4o" (model_hint r1)) (message r1))].
Proof.
  intros Hm Hh. rewrite !route_issued. by rewrite Hm, Hh.
Qed.
End Router.

(** ** Loading the core and failing per call *)

Section Failures.
Context {Vec Score : Type} (svc : Services Vec Score).
Context (load_embeddings : Env → Result unit).

Lemma pinecone_client_missing_key (name : string) (env : Env) :
  truthy (env "PINECONE_API_KEY") = false →
  pinecone_client name env = Err (JsError "Missing PINECONE_API_KEY env var").
Proof. unfold pinecone_client. by intros ->. Qed.

(** Every way [semanticSearch] can fail. *)
Lemma semanticSearch_err_iff (query : string) (k : option Z) (w : World Vec) e :
  result_of (semanticSearch svc query k) w = Err e ↔
  (∃ d, embeddings_create svc query = Failed d ∧ e = ProviderError d) ∨
  (∃ v, embeddings_create svc query = Answered v ∧
        (default 5 k < 1)%Z ∧ e = argument_error) ∨
  (∃ v d, embeddings_create svc query = Answered v ∧
          (1 ≤ default 5 k)%Z ∧
          index_answer svc (index w) "first-user-1"
            (mkQueryOptions (default 5 k) v true) = Failed d ∧
          e = ProviderError d).
Proof.
  unfold result_of.
  destruct (embeddings_create svc query) as [v|d] eqn:Hv.
  - destruct (Z.ltb_spec (default 5 k) 1) as [Hk|Hk].
    + rewrite (semanticSearch_refused svc query k w v Hv Hk). simpl. split.
      * intros [= <-]. right. left. by exists v.
      * intros [(d & [=] & _) | [(v' & _ & _ & ->) | (v' & d & _ & Hk' & _)]];
          [done|lia].
    + rewrite (semanticSearch_sent svc query k w v Hv Hk). simpl.
      destruct (index_answer svc (index w) "first-user-1" _) as [r|d] eqn:Hr;
        split.
      * done.
      * intros [(d & [=] & _) | [(v' & _ & Hk' & _) | (v' & d & [= <-] & _ & Hd & _)]];
          [lia|]. rewrite Hr in Hd. discriminate.
      * intros [= <-]. right. right. by exists v, d.
      * intros [(d' & [=] & _) | [(v' & _ & Hk' & _) | (v' & d' & [= <-] & _ & Hd & ->)]];
          [lia|]. rewrite Hr in Hd. by injection Hd as ->.
  - rewrite semanticSearch_run, Hv. simpl. split.
    + intros [= <-]. left. by exists d.
    + intros [(d' & [= <-] & ->) | [(v & [=] & _) | (v & d' & [=] & _)]]. done.
Qed.

Lemma search_script_body_catches (w : World Vec) e :
  (search_script_body svc w).1 = Caught e ↔
  result_of (semanticSearch svc "How do I implement semantic search?" (Some 3)) w
    = Err e.
Proof.
  unfold search_script_body, result_of.
  destruct (semanticSearch svc _ _ w) as [[ms|e'] w']; simpl;
    split; intros [= ->]; done.
Qed.

(** C7, as the code has it.  A failure inside a call (the embedding
    service or the index rejecting the request, the completion provider
    failing) comes back to the caller of that call as its rejection, with
    the index left as it was, and the search script catches it.  A missing
    or empty PINECONE_API_KEY is different: it is thrown while the
    Pinecone client module is evaluated, so importing the module of
    [semanticSearch] throws before any call can be made and the script
    ends with that exception uncaught.  With the key set the client module
    loads. *)
Theorem failures_per_call_except_missing_key (name : string) (env : Env)
    (query text : string) (k : option Z) (hint : option string)
    (w : World Vec) :
  (truthy (env "PINECONE_API_KEY") = false →
     pinecone_client name env
       = Err (JsError "Missing PINECONE_API_KEY env var") ∧
     load_search_module load_embeddings env
       = Err (JsError "Missing PINECONE_API_KEY env var") ∧
     search_script load_embeddings svc env w
       = (Uncaught (JsError "Missing PINECONE_API_KEY env var"), w)) ∧
  (truthy (env "PINECONE_API_KEY") = true →
     ∃ handle, pinecone_client name env = Ok handle) ∧
  (∀ d, embeddings_create svc query = Failed d →
        result_of (semanticSearch svc query k) w = Err (ProviderError d)) ∧
  (∀ v d, embeddings_create svc query = Answered v →
          (1 ≤ default 5 k)%Z →
          index_answer svc (index w) "first-user-1"
            (mkQueryOptions (default 5 k) v true) = Failed d →
          result_of (semanticSearch svc query k) w = Err (ProviderError d)) ∧
  (∀ e, result_of (semanticSearch svc query k) w = Err e →
        ∃ d, e = ProviderError d) ∧
  index (world_after (semanticSearch svc query k) w) = index w ∧
  (∀ e, (search_script_body svc w).1 = Caught e ↔
        result_of (semanticSearch svc "How do I implement semantic search?"
                     (Some 3)) w = Err e) ∧
  (∀ e, (search_script_body svc w).1 ≠ Uncaught e) ∧
  (∀ d, responses_create svc
          (mkResponsesRequest (default "gpt-4o" hint) text) = Failed d →
        result_of (getOpenAICompletion svc text hint) w
          = Err (ProviderError d)) ∧
  (∀ e, result_of (getOpenAICompletion svc text hint) w = Err e →
        ∃ d, e = ProviderError d ∧
             responses_create svc
               (mkResponsesRequest (default "gpt-4o" hint) text) = Failed d) ∧
  index (world_after (getOpenAICompletion svc text hint) w) = index w.
Proof.
  split; [|split; [|split; [|split; [|split; [|split; [|split;
    [|split; [|split; [|split]]]]]]]]].
  - intros Hkey.
    pose proof (pinecone_client_missing_key "24Hourgpt" env Hkey) as Hload.
    split; [by apply pinecone_client_missing_key|].
    unfold search_script, load_search_module. by rewrite Hload.
  - intros Hkey. unfold pinecone_client. rewrite Hkey. simpl. by eexists.
  - intros d Hd. apply semanticSearch_err_iff. left. by exists d.
  - intros v d Hv Hk Hd. apply semanticSearch_err_iff. right. right.
    by exists v, d.
  - intros e He.
    apply semanticSearch_err_iff
      in He as [(d & _ & ->) | [(v & _ & _ & ->) | (v & d & _ & _ & _ & ->)]];
      by eexists.
  - apply semanticSearch_index.
  - intros e. apply search_script_body_catches.
  - intros e. unfold search_script_body.
    by destruct (semanticSearch svc _ _ w) as [[ms|e'] w'].
  - intros d Hd. unfold result_of. rewrite getOpenAICompletion_run. simpl.
    by rewrite Hd.
  - intros e. unfold result_of. rewrite getOpenAICompletion_run. simpl.
    destruct (responses_create svc _) as [out|d]; [done|].
    intros [= <-]. by exists d.
  - unfold world_after. by rewrite getOpenAICompletion_run.
Qed.
End Failures.

(** ** Document Indexer *)

Section Indexer.
Context {Vec Score : Type} (svc : Services Vec Score).
Context (resolver : string → Result string).

(** [indexDocument], step by step. *)
Lemma indexDocument_run (tenantId docId content : string) (w : World Vec) :
  indexDocument svc resolver tenantId docId content w =
  if bool_decide (content = "") || bool_decide (docId = "")
  then (Err ValidationError, w)
  else match resolver tenantId with
       | Err e => (Err e, w)
       | Ok ns =>
           match embeddings_create svc content with
           | Failed d =>
               (Err (ProviderError d), send (EmbeddingsCreate content) w)
           | Answered v =>
               pinecone_upsert svc ns docId v
                 (send (EmbeddingsCreate content) w)
           end
       end.
Proof.
  unfold indexDocument, await, resolved, reject, getTextEmbedding,
    openai_embeddings_create.
  destruct (_ || _); [done|].
  destruct (resolver tenantId); [|done].
  by destruct (embeddings_create svc content).
Qed.

Lemma pinecone_write_run (c : @Call Vec) f (w : World Vec) :
  calls (world_after (pinecone_write svc c f) w) = (calls w ++ [c])%list ∧
  (∀ e, result_of (pinecone_write svc c f) w = Err e →
        index (world_after (pinecone_write svc c f) w) = index w) ∧
  (result_of (pinecone_write svc c f) w = Ok tt →
        index (world_after (pinecone_write svc c f) w) = f (index w)).
Proof.
  unfold world_after, result_of, pinecone_write.
  by destruct (index_write_fault svc c).
Qed.

(** The requests one [indexDocument] call sends: none, the embedding
    request alone, or the embedding request followed by the upsert of the
    vector that came back. *)
Lemma indexDocument_issued (tenantId docId content : string) (w : World Vec) :
  issued (indexDocument svc resolver tenantId docId content) w = [] ∨
  (issued (indexDocument svc resolver tenantId docId content) w
     = [EmbeddingsCreate content] ∧
   ∃ d, embeddings_create svc content = Failed d) ∨
  (∃ ns v, issued (indexDocument svc resolver tenantId docId content) w
             = [EmbeddingsCreate content; IndexUpsert ns docId v] ∧
           embeddings_create svc content = Answered v).
Proof.
  unfold issued, world_after. rewrite indexDocument_run.
  destruct (_ || _); simpl; [left; apply drop_all|].
  destruct (resolver tenantId) as [ns|e]; simpl; [|left; apply drop_all].
  destruct (embeddings_create svc content) as [v|d]; right.
  - right. exists ns, v. split; [|done].
    pose proof (pinecone_write_run (IndexUpsert ns docId v)
      (λ st, <[ns := <[docId := mkVectorRecord v None]> (ns_records st ns)]> st)
      (send (EmbeddingsCreate content) w)) as (Hc & _).
    unfold world_after in Hc. unfold pinecone_upsert. rewrite Hc. simpl.
    rewrite <- app_assoc. apply drop_app_length.
  - left. split; [apply drop_app_length|by exists d].
Qed.

Lemma indexDocument_error_keeps_index (tenantId docId content : string)
    (w : World Vec) e :
  result_of (indexDocument svc resolver tenantId docId content) w = Err e →
  index (world_after (indexDocument svc resolver tenantId docId content) w)
    = index w.
Proof.
  unfold result_of, world_after. rewrite indexDocument_run.
  destruct (_ || _); [done|].
  destruct (resolver tenantId) as [ns|e']; [|done].
  destruct (embeddings_create svc content) as [v|d]; [|done].
  intros He.
  by apply (pinecone_write_run _ _ (send (EmbeddingsCreate content) w)) in He.
Qed.

(** C5. A call [indexDocument(tenantId, docId, content)] with an empty
    content or an empty docId fails with ValidationError; nothing is sent
    to the embedding service or to the index, and the index is as it was. *)
Theorem indexDocument_rejects_empty (tenantId docId content : string)
    (w : World Vec) :
  content = "" ∨ docId = "" →
  result_of (indexDocument svc resolver tenantId docId content) w
    = Err ValidationError ∧
  issued (indexDocument svc resolver tenantId docId content) w = [] ∧
  index (world_after (indexDocument svc resolver tenantId docId content) w)
    = index w.
Proof.
  intros Hempty. unfold result_of, issued, world_after.
  rewrite indexDocument_run.
  assert (bool_decide (content = "") || bool_decide (docId = "") = true) as ->.
  { destruct Hempty as [->| ->]; [done|]. apply orb_true_r. }
  simpl. split; [done|]. split; [apply drop_all|done].
Qed.

(** C6. Within one [indexDocument] call an upsert is sent only after the
    embedding request of the same call, and carries the vector that
    request returned.  When the embedding request fails no upsert is sent,
    the call fails and the index is unchanged; and whenever the call
    fails, for whatever reason, the index is unchanged. *)
Theorem indexDocument_upsert_follows_embedding (tenantId docId content : string)
    (w : World Vec) :
  (∀ i ns doc v,
     issued (indexDocument svc resolver tenantId docId content) w !! i
       = Some (IndexUpsert ns doc v) →
     embeddings_create svc content = Answered v ∧
     ∃ j, (j < i)%nat ∧
          issued (indexDocument svc resolver tenantId docId content) w !! j
            = Some (EmbeddingsCreate content)) ∧
  (∀ d, embeddings_create svc content = Failed d →
     (∀ ns doc v,
        IndexUpsert ns doc v ∉
          issued (indexDocument svc resolver tenantId docId content) w) ∧
     (∃ e, result_of (indexDocument svc resolver tenantId docId content) w
             = Err e) ∧
     index (world_after (indexDocument svc resolver tenantId docId content) w)
       = index w) ∧
  (∀ e, result_of (indexDocument svc resolver tenantId docId content) w = Err e →
     index (world_after (indexDocument svc resolver tenantId docId content) w)
       = index w).
Proof.
  split; [|split].
  - intros i ns doc v.
    destruct (indexDocument_issued tenantId docId content w)
      as [-> | [[-> _] | (ns' & v' & -> & Hv)]].
    + by rewrite lookup_nil.
    + destruct i as [|i]; simpl; [done|]. by rewrite lookup_nil.
    + destruct i as [|[|i]]; simpl; [done| |by rewrite lookup_nil].
      intros [= <- <- <-]. split; [done|]. exists 0%nat. split; [lia|done].
  - intros d Hd.
    assert (∃ e, result_of (indexDocument svc resolver tenantId docId content) w
                   = Err e) as [e He].
    { unfold result_of. rewrite indexDocument_run.
      destruct (_ || _); [by eexists|].
      destruct (resolver tenantId); [|by eexists].
      rewrite Hd. by eexists. }
    split; [|split; [by exists e|by apply indexDocument_error_keeps_index in He]].
    intros ns doc v.
    destruct (indexDocument_issued tenantId docId content w)
      as [-> | [[-> _] | (ns' & v' & _ & Hv)]].
    + apply not_elem_of_nil.
    + intros Hin. apply list_elem_of_singleton in Hin. discriminate.
    + congruence.
  - intros e. apply indexDocument_error_keeps_index.
Qed.
End Indexer.

(** ** Deleting documents *)

Section Lifecycle.
Context {Vec Score : Type} (svc : Services Vec Score).
Context (metric : Vec → Vec → Score) (score_leb : Score → Score → bool).
Context (contract : IndexContract metric score_leb (index_answer svc)).




End Lifecycle.

(** * Further properties of the code *)

(** ** [semanticSearch], request by request *)

Section RetrieverRequests.
Context {Vec Score : Type} (svc : Services Vec Score).

(** X1. [semanticSearch] fails in exactly three ways: the embedding
    request fails, with that failure; or the embedding is answered and the
    SDK refuses a [topK] below 1, with the SDK's argument error; or the
    embedding is answered, [topK] is at least 1 and the index query fails,
    with that failure. *)
Theorem semanticSearch_fails_iff (query : string) (k : option Z)
    (w : World Vec) (e : Error) :
  result_of (semanticSearch svc query k) w = Err e ↔
  (∃ d, embeddings_create svc query = Failed d ∧ e = ProviderError d) ∨
  (∃ v, embeddings_create svc query = Answered v ∧
        (default 5 k < 1)%Z ∧ e = argument_error) ∨
  (∃ v d, embeddings_create svc query = Answered v ∧
          (1 ≤ default 5 k)%Z ∧
          index_answer svc (index w) "first-user-1"
            (mkQueryOptions (default 5 k) v true) = Failed d ∧
          e = ProviderError d).
Proof. apply semanticSearch_err_iff. Qed.

(** X2. When the embedding request fails, the index is not queried: the
    embedding request is the only one sent.  A query goes out to the index
    exactly when the embedding service has answered and [topK] is at least
    1; a [topK] below 1 is refused by the SDK with nothing sent to the
    index. *)
Theorem semanticSearch_failed_embedding_skips_index (query : string)
    (k : option Z) (w : World Vec) :
  (∀ d, embeddings_create svc query = Failed d →
        issued (semanticSearch svc query k) w = [EmbeddingsCreate query] ∧
        result_of (semanticSearch svc query k) w = Err (ProviderError d)) ∧
  ((∃ ns opts, IndexQuery ns opts ∈ issued (semanticSearch svc query k) w) ↔
   (∃ v, embeddings_create svc query = Answered v) ∧ (1 ≤ default 5 k)%Z) ∧
  ((default 5 k < 1)%Z →
   issued (semanticSearch svc query k) w = [EmbeddingsCreate query]).
Proof.
  split; [|split].
  - intros d Hd. rewrite semanticSearch_issued. unfold result_of.
    by rewrite semanticSearch_run, Hd.
  - rewrite semanticSearch_issued.
    destruct (embeddings_create svc query) as [v|d];
      [destruct (Z.ltb_spec (default 5 k) 1)|]; split.
    + intros (ns & opts & Hin). apply list_elem_of_singleton in Hin.
      discriminate.
    + intros [_ Hk]. lia.
    + intros _. split; [by exists v|done].
    + intros _. eexists _, _. right. by left.
    + intros (ns & opts & Hin). apply list_elem_of_singleton in Hin.
      discriminate.
    + intros [[v [=]] _].
  - intros Hk. rewrite semanticSearch_issued.
    destruct (embeddings_create svc query) as [v|d]; [|done].
    destruct (Z.ltb_spec (default 5 k) 1); [done|lia].
Qed.

(** X3. A search only reads.  It appends its own requests to the log and
    keeps what was there; it sends at most two, the embedding request
    first; each is the embedding request or a query to "first-user-1",
    never a write to the index or a completion request; and the index is
    left as it was. *)
Theorem semanticSearch_only_reads (query : string) (k : option Z)
    (w : World Vec) :
  calls (world_after (semanticSearch svc query k) w)
    = (calls w ++ issued (semanticSearch svc query k) w)%list ∧
  (length (issued (semanticSearch svc query k) w) ≤ 2)%nat ∧
  head (issued (semanticSearch svc query k) w) = Some (EmbeddingsCreate query) ∧
  (∀ c, c ∈ issued (semanticSearch svc query k) w →
        c = EmbeddingsCreate query ∨
        ∃ opts, c = IndexQuery "first-user-1" opts) ∧
  index (world_after (semanticSearch svc query k) w) = index w.
Proof.
  rewrite semanticSearch_issued. unfold world_after.
  rewrite semanticSearch_run.
  destruct (embeddings_create svc query) as [v|d]; simpl;
    [destruct (Z.ltb (default 5 k) 1); simpl|].
  - repeat split; [lia|].
    intros c Hc. apply list_elem_of_singleton in Hc as ->. by left.
  - rewrite <- app_assoc. simpl. repeat split; [lia|].
    intros c Hc. apply elem_of_cons in Hc as [->|Hc]; [by left|].
    apply list_elem_of_singleton in Hc as ->. right. by eexists.
  - repeat split; [lia|].
    intros c Hc. apply list_elem_of_singleton in Hc as ->. by left.
Qed.
End RetrieverRequests.

(** ** Loading the modules *)

Section LoadingMore.
Context (load_embeddings : Env → Result unit).

(** X4. The Pinecone client module loads exactly when PINECONE_API_KEY is
    set to a non-empty string (the empty string counts as missing), and
    the handle it exports then holds that key and the module's index
    name. *)
Theorem pinecone_client_loads_iff (name : string) (env : Env)
    (handle : PineconeIndex) :
  pinecone_client name env = Ok handle ↔
  ∃ key, env "PINECONE_API_KEY" = Some key ∧ key ≠ "" ∧
         handle = mkPineconeIndex key name.
Proof.
  unfold pinecone_client, truthy.
  destruct (env "PINECONE_API_KEY") as [key|]; simpl.
  - destruct (String.eqb_spec key "") as [->|Hne]; simpl; split.
    + done.
    + intros (key & [= <-] & Hne & _). done.
    + intros [= <-]. by exists key.
    + intros (key' & [= <-] & _ & ->). done.
  - split; [done|]. intros (key & [=] & _).
Qed.

(** X5. Importing the module of [semanticSearch] fails in two ways, and
    the Pinecone key is checked first: with the key missing the error is
    the missing-key error whatever the embeddings module would do; with
    the key present the error is the one the embeddings module throws. *)
Theorem load_search_module_fails_iff (env : Env) (e : Error) :
  load_search_module load_embeddings env = Err e ↔
  (truthy (env "PINECONE_API_KEY") = false ∧
   e = JsError "Missing PINECONE_API_KEY env var") ∨
  (truthy (env "PINECONE_API_KEY") = true ∧ load_embeddings env = Err e).
Proof.
  unfold load_search_module, pinecone_client.
  destruct (truthy (env "PINECONE_API_KEY")); simpl.
  - destruct (load_embeddings env) as [[]|e']; split.
    + done.
    + intros [[[=] _]|[_ [=]]].
    + intros [= ->]. by right.
    + intros [[[=] _]|[_ [= ->]]]. done.
  - split.
    + intros [= <-]. by left.
    + intros [[_ ->]|[[=] _]]. done.
Qed.

Context {Vec Score : Type} (svc : Services Vec Score).

Lemma search_script_body_caught (w : World Vec) e :
  (search_script_body svc w).1 ≠ Uncaught e.
Proof.
  unfold search_script_body.
  by destruct (semanticSearch svc _ _ w) as [[ms|e'] w'].
Qed.

(** X6. The search script ends with an uncaught exception exactly when
    importing the module of [semanticSearch] throws, with that exception;
    no request has been sent then.  Every failure of the search itself is
    caught. *)
Theorem search_script_uncaught_iff (env : Env) (w : World Vec) (e : Error) :
  ((search_script load_embeddings svc env w).1 = Uncaught e ↔
   load_search_module load_embeddings env = Err e) ∧
  (load_search_module load_embeddings env = Err e →
   (search_script load_embeddings svc env w).2 = w).
Proof.
  unfold search_script.
  destruct (load_search_module load_embeddings env) as [loaded|e'];
    simpl; split.
  - split; [|done]. intros He. by apply search_script_body_caught in He.
  - done.
  - split; intros [= ->]; done.
  - done.
Qed.

Context (metric : Vec → Vec → Score) (score_leb : Score → Score → bool).
Context (contract : IndexContract metric score_leb (index_answer svc)).

(** X7. The search script asks for three matches: against an index that
    keeps to [topK] it reports at most three, and what it reports is the
    number of matches the index answered with. *)
Theorem search_script_reports_at_most_three (env : Env) (w : World Vec)
    (found : nat) :
  (search_script load_embeddings svc env w).1 = Printed found →
  (found ≤ 3)%nat ∧
  ∃ v r, embeddings_create svc "How do I implement semantic search?"
           = Answered v ∧
         index_answer svc (index w) "first-user-1" (mkQueryOptions 3 v true)
           = Answered r ∧
         found = length (matches r).
Proof using contract.
  unfold search_script.
  destruct (load_search_module load_embeddings env) as [loaded|e']; [|done].
  unfold search_script_body. rewrite semanticSearch_run.
  destruct (embeddings_create svc _) as [v|d]; simpl; [|done].
  destruct (index_answer svc (index w) "first-user-1" _) as [r|d] eqn:Hr;
    simpl; [|done].
  intros [= <-]. split.
  - apply (answer_bound _ _ _ contract _ _ _ _ Hr).
  - by exists v, r.
Qed.
End LoadingMore.

(** ** tests/testClients.ts *)

Section ClientTestFacts.
Context (load_client : string → Env → Result JsValue).
Context (google_class pinecone_class : option string).



Lemma inspect_client_keys (client : JsValue) keyEnv b :
  LogKeyConfigured keyEnv b ∉ inspect_client client.
Proof.
  unfold inspect_client. intros Hin.
  apply elem_of_cons in Hin as [[=]|Hin].
  destruct (constructor_name client);
    apply list_elem_of_singleton in Hin; discriminate.
Qed.

Lemma check_client_keys (env : Env) name client key keyEnv b :
  LogKeyConfigured keyEnv b ∈ check_client env (name, client, key) →
  keyEnv = key ∧ b = truthy (env key).
Proof.
  unfold check_client. intros Hin.
  apply elem_of_app in Hin as [Hin|Hin].
  - apply elem_of_cons in Hin as [[=]|Hin].
    apply elem_of_cons in Hin as [[=]|Hin].
    apply list_elem_of_singleton in Hin. by injection Hin as -> ->.
  - by apply inspect_client_keys in Hin.
Qed.



(** What a successful import leaves in the table. *)
Lemma import_clients_table (env : Env) table :
  import_clients load_client google_class pinecone_class env
    = Ok table →
  truthy (env "PINECONE_API_KEY") = true ∧
  ∃ openai mistral anthropic huggingface xai supabase,
    table = tests (JsObject google_class) openai mistral anthropic
                  huggingface xai (JsObject pinecone_class) supabase.
Proof.
  unfold import_clients.
  destruct (load_client "../lib/clients/openai/client" env); [|done].
  destruct (load_client "../lib/clients/mistral/client" env); [|done].
  destruct (load_client "../lib/clients/anthropic/client" env); [|done].
  destruct (load_client "../lib/clients/huggingface/client" env); [|done].
  destruct (load_client "../lib/clients/xai/client" env); [|done].
  unfold pinecone_client.
  destruct (truthy (env "PINECONE_API_KEY")); simpl; [|done].
  destruct (load_client "../lib/clients/supabase/client" env); [|done].
  intros [= <-]. split; [done|]. by eexists _, _, _, _, _, _.
Qed.



(** X10. Each "API key configured" line tells whether that variable is set
    to a non-empty string; and the line for PINECONE_API_KEY, when it is
    written at all, always says [true]: the test cannot report a missing
    Pinecone key. *)
Theorem testClients_key_lines (env : Env) (lines : list ConsoleLine)
    (keyEnv : string) (b : bool) :
  testClients load_client google_class pinecone_class env
    = Output lines →
  LogKeyConfigured keyEnv b ∈ lines →
  b = truthy (env keyEnv) ∧ (keyEnv = "PINECONE_API_KEY" → b = true).
Proof.
  unfold testClients.
  destruct (import_clients _ _ _ env) as [table|e] eqn:Himp; [|done].
  apply import_clients_table in Himp as (Hkey & o & m & a & h & x & s & ->).
  intros Hout Hin.
  assert (lines = LogBanner ::
            flat_map (check_client env)
              (tests (JsObject google_class) o m a h x
                     (JsObject pinecone_class) s) ++ [LogComplete])
    as Hlines by congruence.
  rewrite Hlines in Hin. clear Hout Hlines.
  assert (b = truthy (env keyEnv)) as ->.
  { apply elem_of_cons in Hin as [[=]|Hin].
    apply elem_of_app in Hin as [Hin|Hin].
    - apply list_elem_of_In, in_flat_map in Hin as ([[name client] key] & _ & Hin).
      apply list_elem_of_In, check_client_keys in Hin as [-> ->]. done.
    - apply list_elem_of_singleton in Hin. discriminate. }
  split; [done|]. by intros ->.
Qed.

(** X11. The Google section reports "Client initialized: true" whatever
    GEMINI_API_KEY is, also when the key line next to it says the key is
    not configured; and the client is then built with the empty key. *)
Theorem testClients_google_always_initialized (env : Env)
    (lines : list ConsoleLine) :
  testClients load_client google_class pinecone_class env
    = Output lines →
  take 4 lines =
    [LogBanner; LogSection "Google (Gemini)"; LogInitialized true;
     LogKeyConfigured "GEMINI_API_KEY" (truthy (env "GEMINI_API_KEY"))] ∧
  (truthy (env "GEMINI_API_KEY") = false → google_client env = "").
Proof.
  unfold testClients.
  destruct (import_clients _ _ _ env) as [table|e] eqn:Himp; [|done].
  apply import_clients_table in Himp as (_ & o & m & a & h & x & s & ->).
  intros [= <-]. split; [done|].
  unfold google_client, or_else. by intros ->.
Qed.
End ClientTestFacts.

(** ** The bouncing balls *)

Module BallCanvasFacts.
Import BallCanvas.

Section AnimationFacts.
Context {num : Type}.
Context (add sub mul : num → num → num) (neg : num → num).
Context (geq leq : num → num → bool).
Context (max min : num → num → num).
Context (of_int : Z → num).
Context (floor_index : num → option nat).
Context (zero half one_and_a_half eight twenty : num).

#[local] Abbreviation initializeBalls :=
  (initializeBalls add sub mul of_int floor_index half one_and_a_half
                   eight twenty).
#[local] Abbreviation new_ball :=
  (new_ball add sub mul of_int floor_index half one_and_a_half eight twenty).
#[local] Abbreviation push_balls :=
  (push_balls add sub mul of_int floor_index half one_and_a_half eight twenty).
#[local] Abbreviation bounce := (bounce add sub neg geq leq max min zero).
#[local] Abbreviation move := (move add sub neg geq leq max min of_int zero).
#[local] Abbreviation animate := (animate add sub neg geq leq max min of_int zero).
#[local] Abbreviation frames := (frames add sub neg geq leq max min of_int zero).

Lemma push_balls_length count canvas random n :
  length (push_balls count canvas random n) = count.
Proof.
  revert n. induction count as [|count IH]; intros n; simpl; [done|].
  by rewrite IH.
Qed.

Lemma push_balls_lookup count canvas random n (i : nat) :
  (i < count)%nat →
  push_balls count canvas random n !! i
    = Some (new_ball canvas random (n + 6 * i)%nat).
Proof.
  revert n i. induction count as [|count IH]; intros n i Hi; [lia|].
  destruct i as [|i]; simpl.
  - by rewrite Nat.add_0_r.
  - rewrite IH by lia. do 2 f_equal. lia.
Qed.

(** X12. [initializeBalls] makes at most 30 balls; it makes none exactly
    when the canvas area is below 10000, and 30 exactly when the area
    reaches 300000. *)
Theorem initializeBalls_count (canvas : Canvas) (random : nat → num) (n : nat) :
  (length (initializeBalls canvas random n) ≤ 30)%nat ∧
  (length (initializeBalls canvas random n) = 0%nat ↔
     (width canvas * height canvas < 10000)%Z) ∧
  (length (initializeBalls canvas random n) = 30%nat ↔
     (300000 ≤ width canvas * height canvas)%Z).
Proof.
  unfold BallCanvas.initializeBalls. rewrite push_balls_length.
  unfold ballCount. set (area := (width canvas * height canvas)%Z).
  pose proof (Z.div_mod area 10000 ltac:(lia)) as Hdiv.
  pose proof (Z.mod_pos_bound area 10000 ltac:(lia)) as Hmod.
  split; [lia|]. split; lia.
Qed.

(** X13. The balls are built from disjoint runs of six random numbers:
    the ball at position [i] is the one built from the draws [6 i] to
    [6 i + 5] after the first, and there is no ball past the count. *)
Theorem initializeBalls_lookup (canvas : Canvas) (random : nat → num)
    (n i : nat) :
  initializeBalls canvas random n !! i =
    if decide (Z.of_nat i < ballCount canvas)%Z
    then Some (new_ball canvas random (n + 6 * i)%nat)
    else None.
Proof.
  unfold BallCanvas.initializeBalls. case_decide as Hi.
  - apply push_balls_lookup. lia.
  - apply lookup_ge_None. rewrite push_balls_length. lia.
Qed.

Lemma move_keeps (canvas : Canvas) (ball : Ball) :
  radius (move canvas ball) = radius ball ∧
  color (move canvas ball) = color ball.
Proof.
  unfold BallCanvas.move.
  destruct (bounce _ (dx ball) _ _), (bounce _ (dy ball) _ _). done.
Qed.

Lemma bounce_velocity (position velocity r edge : num) :
  (bounce position velocity r edge).2 = velocity ∨
  (bounce position velocity r edge).2 = neg velocity.
Proof. unfold BallCanvas.bounce. destruct (_ || _); simpl; auto. Qed.

Lemma move_velocity (canvas : Canvas) (ball : Ball) :
  (dx (move canvas ball) = dx ball ∨ dx (move canvas ball) = neg (dx ball)) ∧
  (dy (move canvas ball) = dy ball ∨ dy (move canvas ball) = neg (dy ball)).
Proof.
  unfold BallCanvas.move.
  pose proof (bounce_velocity (add (x ball) (dx ball)) (dx ball) (radius ball)
                (of_int (width canvas))) as Hx.
  pose proof (bounce_velocity (add (y ball) (dy ball)) (dy ball) (radius ball)
                (of_int (height canvas))) as Hy.
  destruct (bounce _ (dx ball) _ _), (bounce _ (dy ball) _ _). done.
Qed.

(** X14. However many frames run, the animation neither adds nor removes
    a ball, and no ball changes its radius or its colour. *)
Theorem frames_keep_balls (n : nat) (canvas : Canvas) (balls : list Ball) :
  length (frames n canvas balls) = length balls ∧
  radius <$> frames n canvas balls = radius <$> balls ∧
  color <$> frames n canvas balls = color <$> balls.
Proof.
  revert balls. induction n as [|n IH]; intros balls; [done|].
  simpl. destruct (IH (move canvas <$> balls)) as (Hlen & Hr & Hc).
  rewrite Hlen, Hr, Hc, length_fmap, <- !list_fmap_compose.
  split; [done|].
  split; apply list_fmap_ext; intros i b _; simpl; apply move_keeps.
Qed.

(** X15. A ball never gains or loses speed: after any number of frames
    each of its velocity components is the one it started with or that
    one negated. *)
Theorem frames_only_flip_velocity (n : nat) (canvas : Canvas)
    (balls : list Ball) (i : nat) (ball : Ball) :
  (∀ v, neg (neg v) = v) →
  frames n canvas balls !! i = Some ball →
  ∃ ball0, balls !! i = Some ball0 ∧
    (dx ball = dx ball0 ∨ dx ball = neg (dx ball0)) ∧
    (dy ball = dy ball0 ∨ dy ball = neg (dy ball0)).
Proof.
  intros Hneg. revert balls ball.
  induction n as [|n IH]; intros balls ball Hi.
  - exists ball. auto.
  - simpl in Hi. apply IH in Hi as (ball1 & Hi & Hdx & Hdy).
    apply list_lookup_fmap_Some in Hi as (ball0 & -> & Hi).
    exists ball0. split; [done|].
    destruct (move_velocity canvas ball0) as [Hx Hy].
    split.
    + destruct Hdx as [->| ->], Hx as [->| ->]; rewrite ?Hneg; auto.
    + destruct Hdy as [->| ->], Hy as [->| ->]; rewrite ?Hneg; auto.
Qed.




End AnimationFacts.
End BallCanvasFacts.

(** * The theorems at work on the reference world *)

Section Examples.
Import Reference.

Lemma string_app_length (s1 s2 : string) :
  String.length (s1 ++ s2) = (String.length s1 + String.length s2)%nat.
Proof. induction s1 as [|c s1 IH]; simpl; [done|]. by rewrite IH. Qed.

Lemma no_proper_prefix (block s : string) : s = block ++ s → block = "".
Proof.
  intros Heq. apply (f_equal String.length) in Heq.
  rewrite string_app_length in Heq.
  destruct block; [done|]. simpl in Heq. lia.
Qed.

(** With [topK] omitted the query carries 5; the three unordered matches a
    careless index answers with come back untouched, also for [topK = 1];
    [topK = 0] is refused by the SDK once the embedding has been made. *)
Lemma semanticSearch_hands_answer_on_example :
  embeddings_create careless_services "hello" = Answered [5; 1] ∧
  issued (semanticSearch careless_services "hello" None) shared_world =
    [EmbeddingsCreate "hello";
     IndexQuery "first-user-1" (mkQueryOptions 5 [5; 1] true)] ∧
  result_of (semanticSearch careless_services "hello" None) shared_world =
    Ok [mkMatch "x" 1 None; mkMatch "y" 9 None; mkMatch "z" 4 None] ∧
  (issued (semanticSearch careless_services "hello" (Some 1)) shared_world =
     [EmbeddingsCreate "hello";
      IndexQuery "first-user-1" (mkQueryOptions 1 [5; 1] true)] ∧
   result_of (semanticSearch careless_services "hello" (Some 1)) shared_world =
     Ok [mkMatch "x" 1 None; mkMatch "y" 9 None; mkMatch "z" 4 None]) ∧
  (issued (semanticSearch careless_services "hello" (Some 0)) shared_world =
     [EmbeddingsCreate "hello"] ∧
   result_of (semanticSearch careless_services "hello" (Some 0)) shared_world =
     Err argument_error).
Proof.
  assert (Hv : embeddings_create careless_services "hello" = Answered [5; 1])
    by reflexivity.
  destruct (semanticSearch_hands_answer_on careless_services "hello"
              shared_world [5; 1] Hv) as (Hsent & Hres & Hany & Hrefused).
  split; [exact Hv|]. split; [exact Hsent|].
  split; [apply (Hres (mkQueryResponse _ "first-user-1")); reflexivity|].
  split.
  - apply (Hany 1 (mkQueryResponse _ "first-user-1")); [lia|reflexivity].
  - apply (Hrefused 0). lia.
Defined.

(** A search for "tenant2" with [topK = 3] on the reference world. *)
Lemma search_returns_index_answer_example :
  result_of (search services "tenant2" "hello" 3) shared_world
    = Ok [mkMatch "doc-b" 15 None; mkMatch "doc-a" 5 None] ∧
  issued (search services "tenant2" "hello" 3) shared_world
    = [EmbeddingsCreate "hello";
       IndexQuery "first-user-1" (mkQueryOptions 3 [5; 1] true)] ∧
  ∃ ms, result_of (search services "tenant2" "hello" 3) shared_world = Ok ms ∧
        (length ms ≤ Z.to_nat 3)%nat ∧ Sorted (by_score_desc Z.leb) ms.
Proof.
  destruct (search_returns_index_answer services Z.leb
              "tenant2" "hello" 3 shared_world [5; 1]
              (mkQueryResponse
                 [mkMatch "doc-b" 15 None; mkMatch "doc-a" 5 None]
                 "first-user-1"))
    as (Hres & Hsent & Hbound).
  - lia.
  - reflexivity.
  - vm_compute. reflexivity.
  - split; [exact Hres|]. split; [exact Hsent|].
    apply Hbound.
    + simpl. lia.
    + repeat constructor.
Defined.

(** On the reference world "doc-b" is stored under "first-user-1" and
    nowhere else. *)
Lemma doc_b_only_under_first_user (ns : string) :
  is_Some (ns_records (index shared_world) ns !! "doc-b") →
  ns = "first-user-1".
Proof.
  destruct (decide (ns = "first-user-1")) as [->|Hne]; [done|].
  unfold shared_world, ns_records. cbn [index].
  rewrite lookup_insert_ne by done.
  destruct (decide (ns = "tenant2")) as [->|Hne2].
  - rewrite lookup_insert_eq. simpl.
    rewrite lookup_insert_ne by done. rewrite lookup_empty.
    by intros [? [=]].
  - rewrite lookup_insert_ne by done. rewrite lookup_empty. simpl.
    rewrite lookup_empty. by intros [? [=]].
Qed.

(** C4 does not hold of the code: the tenant "tenant2" has the record "G"
    under its own namespace "tenant2", and a search made for it returns
    "doc-b" and "doc-a", records of "first-user-1" that are not stored
    under "tenant2", and not "G".  No way of giving each tenant a
    namespace of its own makes the matches of every search records of the
    tenant's namespace. *)
Lemma search_misses_tenant_namespace :
  result_of (search services "tenant2" "hello" 3) shared_world
    = Ok [mkMatch "doc-b" 15 None; mkMatch "doc-a" 5 None] ∧
  ns_records (index shared_world) "tenant2" !! "G"
    = Some (mkVectorRecord [7; 7] None) ∧
  ns_records (index shared_world) "tenant2" !! "doc-b" = None ∧
  ns_records (index shared_world) "tenant2" !! "doc-a" = None ∧
  ¬ search_serves_namespace services Z.leb (λ tenantId, tenantId) ∧
  ¬ search_serves_tenant_namespace services Z.leb.
Proof.
  split; [vm_compute; reflexivity|].
  split; [vm_compute; reflexivity|].
  split; [vm_compute; reflexivity|].
  split; [vm_compute; reflexivity|].
  assert (∀ namespace_of tenantId,
            search_serves_namespace services Z.leb namespace_of →
            namespace_of tenantId = "first-user-1") as Hall.
  { intros namespace_of tenantId Hserve.
    destruct (Hserve tenantId "hello" 3 shared_world
                [mkMatch "doc-b" 15 None; mkMatch "doc-a" 5 None])
      as (_ & _ & Hstored); [lia|vm_compute; reflexivity|].
    apply doc_b_only_under_first_user.
    apply (Hstored (mkMatch "doc-b" 15 None)). by left. }
  split.
  - intros Hserve. by pose proof (Hall _ "tenant2" Hserve).
  - intros (namespace_of & Hinj & Hserve).
    apply (Hinj "tenant1" "tenant2"); [done|].
    by rewrite (Hall _ "tenant1" Hserve), (Hall _ "tenant2" Hserve).
Qed.

(** Two tenants, two worlds that agree on "first-user-1" only. *)
Lemma search_reads_one_fixed_namespace_example :
  ns_records (index shared_world) "first-user-1"
    = ns_records (index regrouped_world) "first-user-1" ∧
  result_of (search services "tenant-a" "hello" 3) shared_world
    = result_of (search services "tenant-b" "hello" 3) regrouped_world.
Proof.
  assert (Hsame : ns_records (index shared_world) "first-user-1"
                  = ns_records (index regrouped_world) "first-user-1")
    by (vm_compute; reflexivity).
  split; [exact Hsame|].
  apply (search_reads_one_fixed_namespace services dot Z.leb
           reference_contract "tenant-a" "tenant-b" "hello" 3
           shared_world regrouped_world Hsame).
Defined.

(** C1 does not hold of the code: a search made for "tenant-a" returns "doc-b", a
    record of the namespace "tenant-b" resolves to; and a document that
    "tenant-a" indexes is returned to "tenant-b". *)
Lemma search_crosses_tenants :
  "tenant-a" ≠ "tenant-b" ∧
  result_of (search services "tenant-a" "hello" 3) shared_world
    = Ok [mkMatch "doc-b" 15 None; mkMatch "doc-a" 5 None] ∧
  ns_records (index shared_world) (resolve "tenant-b") !! "doc-b"
    = Some (mkVectorRecord [2; 5] None) ∧
  result_of (indexDocument services namespace_resolver
               "tenant-a" "doc-1" "secret") empty_world = Ok tt ∧
  result_of (search services "tenant-b" "secret" 3)
    (world_after (indexDocument services namespace_resolver
                    "tenant-a" "doc-1" "secret") empty_world)
    = Ok [mkMatch "doc-1" 37 None] ∧
  ¬ tenant_isolation services ∧
  ¬ index_then_query_isolated services.
Proof.
  split; [discriminate|].
  split; [vm_compute; reflexivity|].
  split; [vm_compute; reflexivity|].
  split; [vm_compute; reflexivity|].
  split; [vm_compute; reflexivity|].
  split.
  - intros Hiso.
    specialize (Hiso "tenant-a" "tenant-b" ltac:(discriminate) "hello" 3
                  shared_world
                  [mkMatch "doc-b" 15 None; mkMatch "doc-a" 5 None]
                  (mkMatch "doc-b" 15 None)).
    assert (ns_records (index shared_world) (resolve "tenant-b") !! "doc-b"
            = None) as Hnone.
    { apply Hiso; [vm_compute; reflexivity|by left]. }
    vm_compute in Hnone. discriminate.
  - intros Hiso.
    apply (Hiso "tenant-a" "tenant-b" ltac:(discriminate)
             "doc-1" "secret" "secret" 3 empty_world
             [mkMatch "doc-1" 37 None] (mkMatch "doc-1" 37 None)).
    + vm_compute; reflexivity.
    + vm_compute; reflexivity.
    + by left.
    + reflexivity.
Qed.

(** C2 does not hold of the code: two distinct tenants resolve to one namespace. *)
Lemma resolve_collides :
  "tenant1" ≠ "tenant2" ∧
  resolve "tenant1" = "first-user-1" ∧
  resolve "tenant2" = "first-user-1" ∧
  ¬ resolve_injective.
Proof.
  split; [discriminate|]. split; [reflexivity|]. split; [reflexivity|].
  intros Hinj. by apply (Hinj "tenant1" "tenant2").
Qed.

(** C3 does not hold of the code: with the hint "unknown-model-x" the request goes
    out, and what comes back is the provider's failure. *)
Lemma unknown_model_is_sent :
  route services (mkModelRequest "hi" (Some "unknown-model-x") None) empty_world
    = (Err (ProviderError "model_not_found"),
       {| index := ∅;
          calls := [ResponsesCreate
                      (mkResponsesRequest "unknown-model-x" "hi")] |}) ∧
  issued (route services (mkModelRequest "hi" (Some "unknown-model-x") None))
    empty_world
    = [ResponsesCreate (mkResponsesRequest "unknown-model-x" "hi")] ∧
  ¬ rejects_unknown_model services.
Proof.
  split; [vm_compute; reflexivity|]. split; [vm_compute; reflexivity|].
  intros Hrej. destruct (Hrej "hi" None empty_world) as [_ Hnone].
  vm_compute in Hnone. discriminate.
Qed.

(** Same message and model hint, one request with context and one
    without. *)
Lemma route_request_fixed_by_message_and_model_example :
  issued (route services
            (mkModelRequest "hello" None (Some [mkMatch "doc-b" 15 None])))
    empty_world
  = issued (route services (mkModelRequest "hello" None None)) shared_world ∧
  issued (route services
            (mkModelRequest "hello" None (Some [mkMatch "doc-b" 15 None])))
    empty_world
  = [ResponsesCreate (mkResponsesRequest "gpt-4o" "hello")].
Proof.
  apply (route_request_fixed_by_message_and_model services
           (mkModelRequest "hello" None (Some [mkMatch "doc-b" 15 None]))
           (mkModelRequest "hello" None None) empty_world shared_world);
    reflexivity.
Defined.

(** C9 does not hold of the code: a request that holds one retrieved match sends the
    bare message; nothing stands ahead of it. *)
Lemma context_is_not_sent :
  issued (route services
            (mkModelRequest "hello" None (Some [mkMatch "doc-b" 15 None])))
    empty_world
  = [ResponsesCreate (mkResponsesRequest "gpt-4o" "hello")] ∧
  ¬ composes_context_ahead services.
Proof.
  split; [vm_compute; reflexivity|].
  intros Hcomp.
  destruct (Hcomp (mkModelRequest "hello" None (Some [mkMatch "doc-b" 15 None]))
              empty_world [mkMatch "doc-b" 15 None]
              (mkResponsesRequest "gpt-4o" "hello"))
    as (block & Hblock & Heq).
  - reflexivity.
  - discriminate.
  - vm_compute. by left.
  - simpl in Heq. by apply no_proper_prefix in Heq.
Qed.

(** C7 does not hold of the code: with PINECONE_API_KEY unset the client module
    throws while it is loaded, and the search script dies on its import. *)
Lemma missing_key_aborts_load :
  pinecone_client "24Hourgpt" no_env
    = Err (JsError "Missing PINECONE_API_KEY env var") ∧
  pinecone_client "chatbot-main-3" no_env
    = Err (JsError "Missing PINECONE_API_KEY env var") ∧
  search_script (λ _, Ok tt) services no_env shared_world
    = (Uncaught (JsError "Missing PINECONE_API_KEY env var"), shared_world) ∧
  ¬ loading_never_throws.
Proof.
  split; [reflexivity|]. split; [reflexivity|]. split; [reflexivity|].
  intros Hload. destruct (Hload "24Hourgpt" no_env) as [handle Hok].
  discriminate.
Qed.

(** An empty docId. *)
Lemma indexDocument_rejects_empty_example :
  result_of (indexDocument services namespace_resolver "tenant1" "" "text")
    shared_world = Err ValidationError ∧
  issued (indexDocument services namespace_resolver "tenant1" "" "text")
    shared_world = [] ∧
  index (world_after
           (indexDocument services namespace_resolver "tenant1" "" "text")
           shared_world) = index shared_world.
Proof.
  apply (indexDocument_rejects_empty services namespace_resolver
           "tenant1" "" "text" shared_world).
  right. reflexivity.
Defined.

End Examples.

(** * The further properties at work on sample values *)

Section MoreExamples.
Import Reference.

(** The search script on the reference world: two matches reported. *)
Lemma search_script_reports_at_most_three_example :
  (search_script Samples.load_embeddings services full_env shared_world).1
    = Printed 2 ∧
  (2 ≤ 3)%nat.
Proof.
  assert (Hrun : (search_script Samples.load_embeddings services full_env
                    shared_world).1 = Printed 2) by (vm_compute; reflexivity).
  split; [exact Hrun|].
  apply (proj1 (search_script_reports_at_most_three Samples.load_embeddings
                  services dot Z.leb reference_contract full_env shared_world
                  2 Hrun)).
Defined.



(** The key lines of the same run: OpenAI not configured, Pinecone
    configured. *)
Lemma testClients_key_lines_example :
  ∃ lines,
    testClients Samples.load_client
      (Some "GoogleGenerativeAI") (Some "Index") full_env = Output lines ∧
    lines !! 8%nat = Some (LogKeyConfigured "OPENAI_API_KEY" false) ∧
    false = truthy (full_env "OPENAI_API_KEY") ∧
    lines !! 33%nat = Some (LogKeyConfigured "PINECONE_API_KEY" true) ∧
    true = truthy (full_env "PINECONE_API_KEY").
Proof.
  eexists. split; [vm_compute; reflexivity|].
  match goal with |- ?l !! 8%nat = _ ∧ _ => set (lines := l) end.
  assert (Hrun : testClients Samples.load_client
                   (Some "GoogleGenerativeAI") (Some "Index") full_env
                 = Output lines) by (vm_compute; reflexivity).
  assert (Hopenai : LogKeyConfigured "OPENAI_API_KEY" false ∈ lines)
    by (apply list_elem_of_lookup; exists 8%nat; reflexivity).
  assert (Hpinecone : LogKeyConfigured "PINECONE_API_KEY" true ∈ lines)
    by (apply list_elem_of_lookup; exists 33%nat; reflexivity).
  split; [reflexivity|]. split.
  - exact (proj1 (testClients_key_lines Samples.load_client
                    (Some "GoogleGenerativeAI")
                    (Some "Index") full_env lines "OPENAI_API_KEY" false
                    Hrun Hopenai)).
  - split; [reflexivity|].
    exact (proj1 (testClients_key_lines Samples.load_client
                    (Some "GoogleGenerativeAI")
                    (Some "Index") full_env lines "PINECONE_API_KEY" true
                    Hrun Hpinecone)).
Defined.

(** GEMINI_API_KEY is unset in the same run. *)
Lemma testClients_google_always_initialized_example :
  ∃ lines,
    testClients Samples.load_client
      (Some "GoogleGenerativeAI") (Some "Index") full_env = Output lines ∧
    take 4 lines =
      [LogBanner; LogSection "Google (Gemini)"; LogInitialized true;
       LogKeyConfigured "GEMINI_API_KEY" false] ∧
    google_client full_env = "".
Proof.
  eexists. split; [vm_compute; reflexivity|].
  destruct (testClients_google_always_initialized Samples.load_client
              (Some "GoogleGenerativeAI") (Some "Index")
              full_env _ ltac:(vm_compute; reflexivity)) as [Htake Hkey].
  split; [exact Htake|]. apply Hkey. reflexivity.
Defined.

(** A ball that hits the right edge in the first of three frames. *)
Lemma frames_only_flip_velocity_example :
  BallCanvas.frames Z.add Z.sub Z.opp Z.geb Z.leb Z.max Z.min (λ n, n) 0
    3 Samples.canvas [Samples.ball]
    = [BallCanvas.mkBall 72 31 (-10) (-3) 8 (Some "#ff6b6b")] ∧
  ∃ ball0, [Samples.ball] !! 0%nat = Some ball0 ∧
    (-10 = BallCanvas.dx ball0 ∨ -10 = - BallCanvas.dx ball0) ∧
    (-3 = BallCanvas.dy ball0 ∨ -3 = - BallCanvas.dy ball0).
Proof.
  split; [vm_compute; reflexivity|].
  apply (BallCanvasFacts.frames_only_flip_velocity
           Z.add Z.sub Z.opp Z.geb Z.leb Z.max Z.min (λ n, n) 0
           3 Samples.canvas [Samples.ball] 0
           (BallCanvas.mkBall 72 31 (-10) (-3) 8 (Some "#ff6b6b"))).
  - intros v. lia.
  - vm_compute. reflexivity.
Defined.
End MoreExamples.
